(** * InSAR add-in: selection controller and average-velocity estimator

    A shallow embedding of [Install/common/utils.py], [Install/common/avevel.py]
    and the two tools of [Install/InSAR_addin.py].

    The add-in is Python 2.7 code running inside ArcMap.  Its functions
    mutate host objects (the layer's feature selection, the geoprocessing
    environment, the default geodatabase, the tool objects) and raise
    exceptions, so the embedding is a state-and-exception monad [Py] over a
    record [World] holding the part of the host that the code touches.

    Numbers: coordinates, extents and velocities are doubles in the source;
    they are embedded as rationals [Q], that is, the arithmetic is exact and
    rounding is not modelled.  The one non-finite value the code can produce
    (the mean of an empty array) is kept as [NaN]. *)

From Stdlib Require Import QArith Qminmax Lqa DecimalString DecimalNat.
From stdpp Require Import base option strings list gmap.

Local Open Scope string_scope.

(* ------------------------------------------------------------------ *)
(** * Python exceptions and [try]/[except] *)

(** The exception classes that can occur, with the part of the class
    hierarchy needed to decide an [except] clause. *)
Inductive ExcType :=
  | BaseException | Exception | StandardError | Warning | UserWarning
  | ValueError | ArithmeticError | ZeroDivisionError | RuntimeError
  | ExecuteError.

Definition ExcType_eqb (c d : ExcType) : bool :=
  match c, d with
  | BaseException, BaseException | Exception, Exception
  | StandardError, StandardError | Warning, Warning
  | UserWarning, UserWarning | ValueError, ValueError
  | ArithmeticError, ArithmeticError | ZeroDivisionError, ZeroDivisionError
  | RuntimeError, RuntimeError | ExecuteError, ExecuteError => true
  | _, _ => false
  end.

Definition base_class (c : ExcType) : option ExcType :=
  match c with
  | BaseException => None
  | Exception => Some BaseException
  | StandardError => Some Exception
  | Warning => Some Exception
  | UserWarning => Some Warning
  | ValueError => Some StandardError
  | ArithmeticError => Some StandardError
  | ZeroDivisionError => Some ArithmeticError
  | RuntimeError => Some StandardError
  | ExecuteError => Some Exception
  end.

Fixpoint issubclass_fuel (fuel : nat) (c d : ExcType) : bool :=
  if ExcType_eqb c d then true
  else match fuel with
       | O => false
       | S fuel' =>
           match base_class c with
           | Some b => issubclass_fuel fuel' b d
           | None => false
           end
       end.

(** The hierarchy above is five levels deep. *)
Definition issubclass : ExcType -> ExcType -> bool := issubclass_fuel 5.

Record PyExc := mkExc { exc_type : ExcType; exc_message : string }.

(** What follows the keyword [except]: a class, or (as in both
    [onRectangle] methods) a string literal. *)
Inductive ExceptClause :=
  | ExceptClass (c : ExcType)
  | ExceptString (s : string).

(** Python 2.6 and 2.7: [raise] only accepts classes and instances, and an
    [except] clause whose expression is a string is compared with the raised
    exception's class by identity, so it matches no exception at all (the
    interpreter only emits a deprecation warning).  The exception's message
    plays no part in the match. *)
Definition exc_matches (e : PyExc) (c : ExceptClause) : bool :=
  match c with
  | ExceptClass d => issubclass (exc_type e) d
  | ExceptString _ => false
  end.

Inductive Outcome (A : Type) :=
  | Return (a : A)
  | Raise (e : PyExc).
Arguments Return {A} a.
Arguments Raise {A} e.

(** Result of a [try] statement with a single [except] clause: the body's
    value, or the fact that the clause caught the exception. *)
Inductive Tried (A : Type) :=
  | Completed (a : A)
  | Caught (e : PyExc).
Arguments Completed {A} a.
Arguments Caught {A} e.

(* ------------------------------------------------------------------ *)
(** * Geometry collaborator *)

Record Point := mkPoint { X : Q; Y : Q }.

Definition SpatialReference := string.

Record Extent := mkExtent { XMin : Q; YMin : Q; XMax : Q; YMax : Q }.

Definition width (e : Extent) : Q := XMax e - XMin e.
Definition height (e : Extent) : Q := YMax e - YMin e.
Definition lowerLeft (e : Extent) : Point := mkPoint (XMin e) (YMin e).
Definition lowerRight (e : Extent) : Point := mkPoint (XMax e) (YMin e).
Definition upperRight (e : Extent) : Point := mkPoint (XMax e) (YMax e).
Definition upperLeft (e : Extent) : Point := mkPoint (XMin e) (YMax e).

Record Polygon := mkPolygon { ring : list Point; poly_spatref : SpatialReference }.

(** The host decides which points lie within a polygon; the add-in only
    asks.  The predicate is therefore a parameter of the development. *)
Class GeometryEngine := { within : Point -> Polygon -> bool }.

(* ------------------------------------------------------------------ *)
(** * Layers, arrays, rasters *)

(** A scatterer: its location and its attribute table row. *)
Record Feature := mkFeature { location : Point; attr : string -> Q }.

(** A feature layer.  [lyr_selection] is [None] when the layer has no
    selection set, and [Some fs] when [fs] (possibly empty) is selected. *)
Record Layer := mkLayer {
  lyr_spatref : SpatialReference;
  lyr_fields : list string;
  lyr_features : list Feature;
  lyr_selection : option (list Feature)
}.

(** Layers are host objects; Python variables hold references to them. *)
Definition LayerRef := string.

Inductive MapDocument := CURRENT.

(** The features a geoprocessing tool sees in a layer: the selected ones
    when there is a selection set, all of them otherwise. *)
Definition visible_features (l : Layer) : list Feature :=
  match lyr_selection l with
  | Some fs => fs
  | None => lyr_features l
  end.

Inductive pyfloat := Finite (q : Q) | NaN.

(** A numpy structured array: field names and records. *)
Record StructArray := mkStructArray { dtype_names : list string; records : list Feature }.

(** A two-dimensional numpy array, as the list of its rows. *)
Definition ndarray := list (list Q).

(** [np.shape]: (length of the first axis, length of the second axis). *)
Definition np_shape (a : ndarray) : nat * nat :=
  (length a, match a with r :: _ => length r | [] => O end).

Record Raster := mkRaster {
  ras_data : ndarray;
  ras_lower_left : Point;
  ras_x_cell_size : Q;
  ras_y_cell_size : Q;
  ras_spatref : option SpatialReference
}.

Record MapLayer := mkMapLayer { ml_source : string; ml_transparency : Z }.

(* ------------------------------------------------------------------ *)
(** * Tool objects and the host state *)

Record Tool := mkTool {
  enabled : bool;
  shape : string;
  cursor : Z;
  sar : option LayerRef
}.

(** What is shown to the user.  Formatted texts keep their arguments
    instead of the rendered digits. *)
Inductive Message :=
  | Text (s : string)
  | SelectedWithin (nfeat : string) (e : Extent)
  | AverageReport (nfeat : nat) (e : Extent) (ave_vel : pyfloat).

Inductive Event :=
  | EvMessageBox (msg : Message) (title : string) (kind : Z)
  | EvPrint (msg : Message).

Record World := mkWorld {
  w_toc : option LayerRef;              (* item highlighted in the table of contents *)
  w_layers : gmap string Layer;         (* feature layers of the map document *)
  w_addOutputsToMap : bool;             (* ap.env.addOutputsToMap *)
  w_overwriteOutput : bool;             (* ap.env.overwriteOutput *)
  w_outputCoordinateSystem : option SpatialReference;
  w_gdb : gmap string Raster;           (* rasters of the default geodatabase *)
  w_raster_transparency : bool;         (* raster layers support TRANSPARENCY *)
  w_dataframe : list MapLayer;          (* first data frame, top layer first *)
  w_log : list Event;                   (* message boxes and prints, oldest first *)
  w_avevel_tool : Tool;                 (* the AverageDisplacementVelocity object *)
  w_subres_tool : Tool                  (* the SubsidenceResidual object *)
}.

Definition set_layers (f : gmap string Layer -> gmap string Layer) (w : World) : World :=
  mkWorld (w_toc w) (f (w_layers w)) (w_addOutputsToMap w) (w_overwriteOutput w)
    (w_outputCoordinateSystem w) (w_gdb w) (w_raster_transparency w) (w_dataframe w)
    (w_log w) (w_avevel_tool w) (w_subres_tool w).

Definition set_addOutputsToMap (b : bool) (w : World) : World :=
  mkWorld (w_toc w) (w_layers w) b (w_overwriteOutput w)
    (w_outputCoordinateSystem w) (w_gdb w) (w_raster_transparency w) (w_dataframe w)
    (w_log w) (w_avevel_tool w) (w_subres_tool w).

Definition set_overwriteOutput (b : bool) (w : World) : World :=
  mkWorld (w_toc w) (w_layers w) (w_addOutputsToMap w) b
    (w_outputCoordinateSystem w) (w_gdb w) (w_raster_transparency w) (w_dataframe w)
    (w_log w) (w_avevel_tool w) (w_subres_tool w).

Definition set_outputCoordinateSystem (s : option SpatialReference) (w : World) : World :=
  mkWorld (w_toc w) (w_layers w) (w_addOutputsToMap w) (w_overwriteOutput w)
    s (w_gdb w) (w_raster_transparency w) (w_dataframe w)
    (w_log w) (w_avevel_tool w) (w_subres_tool w).

Definition set_gdb (f : gmap string Raster -> gmap string Raster) (w : World) : World :=
  mkWorld (w_toc w) (w_layers w) (w_addOutputsToMap w) (w_overwriteOutput w)
    (w_outputCoordinateSystem w) (f (w_gdb w)) (w_raster_transparency w) (w_dataframe w)
    (w_log w) (w_avevel_tool w) (w_subres_tool w).

Definition set_dataframe (f : list MapLayer -> list MapLayer) (w : World) : World :=
  mkWorld (w_toc w) (w_layers w) (w_addOutputsToMap w) (w_overwriteOutput w)
    (w_outputCoordinateSystem w) (w_gdb w) (w_raster_transparency w) (f (w_dataframe w))
    (w_log w) (w_avevel_tool w) (w_subres_tool w).

Definition set_log (f : list Event -> list Event) (w : World) : World :=
  mkWorld (w_toc w) (w_layers w) (w_addOutputsToMap w) (w_overwriteOutput w)
    (w_outputCoordinateSystem w) (w_gdb w) (w_raster_transparency w) (w_dataframe w)
    (f (w_log w)) (w_avevel_tool w) (w_subres_tool w).

Definition set_avevel_tool (f : Tool -> Tool) (w : World) : World :=
  mkWorld (w_toc w) (w_layers w) (w_addOutputsToMap w) (w_overwriteOutput w)
    (w_outputCoordinateSystem w) (w_gdb w) (w_raster_transparency w) (w_dataframe w)
    (w_log w) (f (w_avevel_tool w)) (w_subres_tool w).

Definition set_subres_tool (f : Tool -> Tool) (w : World) : World :=
  mkWorld (w_toc w) (w_layers w) (w_addOutputsToMap w) (w_overwriteOutput w)
    (w_outputCoordinateSystem w) (w_gdb w) (w_raster_transparency w) (w_dataframe w)
    (w_log w) (w_avevel_tool w) (f (w_subres_tool w)).

Definition set_sar (l : option LayerRef) (t : Tool) : Tool :=
  mkTool (enabled t) (shape t) (cursor t) l.

(* ------------------------------------------------------------------ *)
(** * The monad of Python statements *)

Definition Py (A : Type) : Type := World -> Outcome A * World.

Definition ret {A} (a : A) : Py A := fun w => (Return a, w).

Definition raise {A} (e : PyExc) : Py A := fun w => (Raise e, w).

Definition bind {A B} (m : Py A) (k : A -> Py B) : Py B :=
  fun w =>
    match m w with
    | (Return a, w') => k a w'
    | (Raise e, w') => (Raise e, w')
    end.

Global Instance Py_ret : MRet Py := @ret.
Global Instance Py_bind : MBind Py := fun A B k m => bind m k.

Definition lift_outcome {A} (o : Outcome A) : Py A := fun w => (o, w).

Definition gets {A} (f : World -> A) : Py A := fun w => (Return (f w), w).
Definition modify (f : World -> World) : Py unit := fun w => (Return tt, f w).

(** [try: body / except clause: ...]: an exception that the clause does not
    match keeps propagating. *)
Definition try_except {A} (body : Py A) (clause : ExceptClause) : Py (Tried A) :=
  fun w =>
    match body w with
    | (Return a, w') => (Return (Completed a), w')
    | (Raise e, w') =>
        if exc_matches e clause then (Return (Caught e), w') else (Raise e, w')
    end.

(* ------------------------------------------------------------------ *)
(** * The host's API, as far as the add-in calls it *)

Inductive OverlapType := WITHIN.
Inductive SelectionType := NEW_SELECTION | CLEAR_SELECTION.

Definition set_selection (sel : option (list Feature)) (l : Layer) : Layer :=
  mkLayer (lyr_spatref l) (lyr_fields l) (lyr_features l) sel.

(** A Python variable meant to hold a layer holds a reference or [None].
    The geoprocessing functions fail on [None] and on a reference that is
    not a feature layer of the map. *)
Definition get_layer (layer : option LayerRef) : Py Layer :=
  fun w =>
    match layer with
    | None => (Raise (mkExc RuntimeError "Object: Error in executing tool"), w)
    | Some r =>
        match w_layers w !! r with
        | Some l => (Return l, w)
        | None => (Raise (mkExc ExecuteError "ERROR 000732: Dataset does not exist or is not supported"), w)
        end
    end.

Definition put_layer (layer : option LayerRef) (l : Layer) : Py unit :=
  match layer with
  | Some r => modify (set_layers (<[r := l]>))
  | None => mret tt
  end.

(** [pa.MessageBox] and [print]. *)
Definition MessageBox (msg : Message) (title : string) (kind : Z) : Py unit :=
  modify (set_log (fun log => (log ++ [EvMessageBox msg title kind])%list)).

Definition print (msg : Message) : Py unit :=
  modify (set_log (fun log => (log ++ [EvPrint msg])%list)).

Definition GetSelectedTOCLayerOrDataFrame : Py (option LayerRef) := gets w_toc.

(** [ap.Describe(layer).spatialReference] *)
Definition Describe_spatialReference (layer : option LayerRef) : Py SpatialReference :=
  l ← get_layer layer; mret (lyr_spatref l).

Definition SelectLayerByLocation_management `{GeometryEngine}
    (layer : option LayerRef) (overlap : OverlapType) (poly : Polygon)
    (search_distance : Q) (selection_type : SelectionType) : Py unit :=
  l ← get_layer layer;
  match selection_type with
  | NEW_SELECTION =>
      put_layer layer
        (set_selection
           (Some (List.filter (fun f => within (location f) poly) (lyr_features l))) l)
  | CLEAR_SELECTION => put_layer layer (set_selection None l)
  end.

(** Without a where clause, a new selection selects every feature. *)
Definition SelectLayerByAttribute_management
    (layer : option LayerRef) (selection_type : SelectionType) : Py unit :=
  l ← get_layer layer;
  match selection_type with
  | NEW_SELECTION => put_layer layer (set_selection (Some (lyr_features l)) l)
  | CLEAR_SELECTION => put_layer layer (set_selection None l)
  end.

(** The text in which the host reports a feature count: its decimal
    digits. *)
Definition count_text (n : nat) : string := NilZero.string_of_uint (Nat.to_uint n).

(** [ap.GetCount_management(layer).getOutput(0)] *)
Definition GetCount_management_getOutput0 (layer : option LayerRef) : Py string :=
  l ← get_layer layer;
  mret (count_text (length (visible_features l))).

(** [[f.name for f in ap.ListFields(layer)]] *)
Definition ListFields_names (layer : option LayerRef) : Py (list string) :=
  l ← get_layer layer; mret (lyr_fields l).

Definition name_in (name : string) (names : list string) : bool :=
  existsb (String.eqb name) names.

Definition FeatureClassToNumPyArray
    (layer : option LayerRef) (field_names : list string) : Py StructArray :=
  l ← get_layer layer;
  if forallb (fun n => name_in n (lyr_fields l)) field_names
  then mret (mkStructArray field_names (visible_features l))
  else raise (mkExc RuntimeError "A column was specified that does not exist.").

(** [sel_data[name]] on a structured array: the column of that field; numpy
    raises [ValueError] when the array has no field of that name. *)
Definition getitem (a : StructArray) (name : string) : Py (list Q) :=
  if name_in name (dtype_names a)
  then mret (map (fun f => attr f name) (records a))
  else raise (mkExc ValueError ("no field of name " ++ name)).

(** The sum of an array, accumulated from the left. *)
Definition np_sum (l : list Q) : Q := fold_left Qplus l 0%Q.

(** [np.average] without weights: the sum divided by the number of
    elements; [nan] for an empty array. *)
Definition np_average (l : list Q) : pyfloat :=
  match l with
  | [] => NaN
  | _ :: _ => Finite (np_sum l / inject_Z (Z.of_nat (length l)))
  end.

(** [x / n] for a float [x] and an integer [n]. *)
Definition truediv (x : Q) (n : nat) : Py Q :=
  match n with
  | O => raise (mkExc ZeroDivisionError "float division by zero")
  | S _ => mret (x / inject_Z (Z.of_nat n))%Q
  end.

(** [int(float(s))] for the text of a feature count.  A count is far below
    2^53, so the detour through a double is exact; texts that are not a
    run of decimal digits are rejected as by [float]. *)
Definition int_float (s : string) : Py nat :=
  match NilZero.uint_of_string s with
  | Some d => mret (Nat.of_uint d)
  | None => raise (mkExc ValueError ("could not convert string to float: " ++ s))
  end.

Definition NumPyArrayToRaster (in_array : ndarray) (lower_left_corner : Point)
    (x_cell_size y_cell_size : Q) : Py Raster :=
  cs ← gets w_outputCoordinateSystem;
  mret (mkRaster in_array lower_left_corner x_cell_size y_cell_size cs).

(** [raster.save(name)]: refuses to replace an existing dataset unless
    [ap.env.overwriteOutput] is set. *)
Definition Raster_save (raster : Raster) (name : string) : Py unit :=
  fun w =>
    match w_gdb w !! name with
    | Some _ =>
        if w_overwriteOutput w
        then (Return tt, set_gdb (<[name := raster]>) w)
        else (Raise (mkExc RuntimeError "ERROR 010240: Could not save raster dataset"), w)
    | None => (Return tt, set_gdb (<[name := raster]>) w)
    end.

(** [ap.mapping.Layer(name)]: a layer on a stored dataset. *)
Definition mapping_Layer (name : string) : Py MapLayer :=
  fun w =>
    match w_gdb w !! name with
    | Some _ => (Return (mkMapLayer name 0), w)
    | None => (Raise (mkExc ValueError "Object: CreateObject Layer invalid data source"), w)
    end.

Inductive LayerProperty := TRANSPARENCY.

Definition supports (l : MapLayer) (p : LayerProperty) : Py bool :=
  gets w_raster_transparency.

Definition set_transparency (t : Z) (l : MapLayer) : MapLayer :=
  mkMapLayer (ml_source l) t.

Inductive AddPosition := TOP.

(** [ap.mapping.ListDataFrames(md)[0]]: a map document always has a first
    data frame; [w_dataframe] holds its layers. *)
Inductive DataFrame := FirstDataFrame.

Definition ListDataFrames_0 (md : MapDocument) : Py DataFrame := mret FirstDataFrame.

Definition AddLayer (df : DataFrame) (add_layer : MapLayer) (pos : AddPosition) : Py unit :=
  modify (set_dataframe (fun layers => add_layer :: layers)).

(* ------------------------------------------------------------------ *)
(** * [common/utils.py] *)

Module utils.

Definition verifySqueeSAR : Py (LayerRef * MapDocument) :=
  let md := CURRENT in
  layer ← GetSelectedTOCLayerOrDataFrame;
  match layer with
  | None =>
      MessageBox
        (Text "Select the SqueeSAR layer from the table of content
then select an area to evaluate the residual") "Warning" 0;;
      raise (mkExc UserWarning "Invalid layer!")
  | Some l => mret (l, md)
  end.

Definition selectSqueeSARData `{GeometryEngine}
    (extent : Extent) (layer : option LayerRef) : Py (nat * SpatialReference) :=
  spatref ← Describe_spatialReference layer;
  let area := [lowerLeft extent; lowerRight extent; upperRight extent;
               upperLeft extent; lowerLeft extent] in
  let poly := mkPolygon area spatref in
  SelectLayerByLocation_management layer WITHIN poly 0 NEW_SELECTION;;
  nfeat ← GetCount_management_getOutput0 layer;
  if String.eqb nfeat "0" then
    MessageBox (Text "No features were available within the selection boundaries")
      "Warning" 0;;
    raise (mkExc UserWarning "No features!")
  else
    print (SelectedWithin nfeat extent);;
    n ← int_float nfeat;
    mret (n, spatref).

End utils.

(* ------------------------------------------------------------------ *)
(** * [common/avevel.py] *)

Module avevel.

Definition evaluate (layer : option LayerRef) : Py pyfloat :=
  fld_names ← ListFields_names layer;
  sel_data ← FeatureClassToNumPyArray layer fld_names;
  (if negb (name_in "VEL" fld_names)
   then MessageBox (Text "Couldn't find the field 'VEL' in the data.") "Error" 0
   else mret tt);;
  vel ← getitem sel_data "VEL";
  mret (np_average vel).

End avevel.

(* ------------------------------------------------------------------ *)
(** * [common/subres.py]

    The module is imported by the add-in but its text is not part of the
    sources at hand.  Its one entry point is taken as a parameter: a function
    of the extent and of the layer (with its current selection) that yields
    the residual array or raises. *)

Class SubresModule := { subres_evaluate : Extent -> Layer -> Outcome ndarray }.

Module subres.

Definition evaluate `{SubresModule} (extent : Extent) (layer : option LayerRef) : Py ndarray :=
  l ← get_layer layer;
  lift_outcome (subres_evaluate extent l).

End subres.

(* ------------------------------------------------------------------ *)
(** * [InSAR_addin.py]: the average displacement velocity tool *)

Module AverageDisplacementVelocity.

Definition self_sar : Py (option LayerRef) := gets (fun w => sar (w_avevel_tool w)).

Definition __init__ : Py unit :=
  modify (set_avevel_tool (fun _ => mkTool true "Rectangle" 3 None));;
  modify (set_addOutputsToMap false);;
  modify (set_overwriteOutput true).

Definition deactivate : Py unit :=
  s ← self_sar;
  match s with
  | Some _ => SelectLayerByAttribute_management s CLEAR_SELECTION
  | None => mret tt
  end.

Definition onRectangle `{GeometryEngine} (rectangle_geometry : Extent) : Py unit :=
  t ← try_except
         ('(l, md) ← utils.verifySqueeSAR;
          modify (set_avevel_tool (set_sar (Some l)));;
          mret md)
         (ExceptString "Invalid layer!");
  match t with
  | Caught _ => mret tt
  | Completed md =>
      t ← try_except
             (s ← self_sar; utils.selectSqueeSARData rectangle_geometry s)
             (ExceptString "No features!");
      match t with
      | Caught _ => mret tt
      | Completed (nfeat, spatref) =>
          s ← self_sar;
          ave_vel ← avevel.evaluate s;
          MessageBox (AverageReport nfeat rectangle_geometry ave_vel) "Info" 0;;
          s ← self_sar;
          SelectLayerByAttribute_management s CLEAR_SELECTION
      end
  end.

End AverageDisplacementVelocity.

(* ------------------------------------------------------------------ *)
(** * [InSAR_addin.py]: the subsidence residual tool *)

Module SubsidenceResidual.

Definition self_sar : Py (option LayerRef) := gets (fun w => sar (w_subres_tool w)).

Definition __init__ : Py unit :=
  modify (set_subres_tool (fun _ => mkTool true "Rectangle" 3 None));;
  modify (set_addOutputsToMap false);;
  modify (set_overwriteOutput true).

Definition deactivate : Py unit :=
  s ← self_sar;
  match s with
  | Some _ => SelectLayerByAttribute_management s CLEAR_SELECTION
  | None => mret tt
  end.

Definition onRectangle `{GeometryEngine} `{SubresModule}
    (rectangle_geometry : Extent) : Py unit :=
  t ← try_except
         ('(l, md) ← utils.verifySqueeSAR;
          modify (set_subres_tool (set_sar (Some l)));;
          mret md)
         (ExceptString "Invalid layer!");
  match t with
  | Caught _ => mret tt
  | Completed md =>
      let extent := rectangle_geometry in
      t ← try_except
             (s ← self_sar; utils.selectSqueeSARData extent s)
             (ExceptString "No features!");
      match t with
      | Caught _ => mret tt
      | Completed (nfeat, spatref) =>
          if (nfeat <? 3)%nat then
            MessageBox
              (Text "At least 3 features required within the selection boundaries")
              "Warning" 0
          else
            s ← self_sar;
            res ← subres.evaluate extent s;
            let '(x_len, y_len) := np_shape res in
            x_cell_size ← truediv (width extent) x_len;
            y_cell_size ← truediv (height extent) y_len;
            modify (set_outputCoordinateSystem (Some spatref));;
            raster ← NumPyArrayToRaster res (lowerLeft extent) x_cell_size y_cell_size;
            Raster_save raster "subsidence";;
            df ← ListDataFrames_0 md;
            add_layer ← mapping_Layer "subsidence";
            sup ← supports add_layer TRANSPARENCY;
            let add_layer := if (sup : bool) then set_transparency 25 add_layer else add_layer in
            AddLayer df add_layer TOP;;
            s ← self_sar;
            SelectLayerByAttribute_management s CLEAR_SELECTION
      end
  end.

End SubsidenceResidual.

(* ------------------------------------------------------------------ *)
(** * Concrete collaborators and a small map, for evaluation *)

(** A geometry engine for axis-parallel rectangles: a point is within the
    polygon when it lies in the closed bounding box of the ring. *)
Definition ring_min (proj : Point -> Q) (r : list Point) : option Q :=
  match r with
  | [] => None
  | p :: ps => Some (fold_left (fun m q => Qmin m (proj q)) ps (proj p))
  end.

Definition ring_max (proj : Point -> Q) (r : list Point) : option Q :=
  match r with
  | [] => None
  | p :: ps => Some (fold_left (fun m q => Qmax m (proj q)) ps (proj p))
  end.

Definition box_within (p : Point) (poly : Polygon) : bool :=
  match ring_min X (ring poly), ring_max X (ring poly),
        ring_min Y (ring poly), ring_max Y (ring poly) with
  | Some x0, Some x1, Some y0, Some y1 =>
      Qle_bool x0 (X p) && Qle_bool (X p) x1 && Qle_bool y0 (Y p) && Qle_bool (Y p) y1
  | _, _, _, _ => false
  end.

Definition box_geometry : GeometryEngine := {| within := box_within |}.

(** A stand-in for the residual module that returns a fixed array. *)
Definition fixed_subres (a : ndarray) : SubresModule :=
  {| subres_evaluate := fun _ _ => Return a |}.

Definition scatterer (x y vel : Q) : Feature :=
  mkFeature (mkPoint x y) (fun name => if String.eqb name "VEL" then vel else 0%Q).

Definition squeesar (fs : list Feature) : Layer :=
  mkLayer "WGS84" ["FID"; "Shape"; "VEL"] fs None.

Definition idle_tool : Tool := mkTool true "Rectangle" 3 None.

Definition arcmap (toc : option LayerRef) (layers : gmap string Layer) : World :=
  mkWorld toc layers false true None ∅ true [] [] idle_tool idle_tool.

Definition unit_square : Extent := mkExtent 0 0 1 1.

Definition on_plane : list Feature :=
  [scatterer 0 0 1; scatterer 1 0 1; scatterer 0 1 1].

Definition sar_map (l : Layer) : World := arcmap (Some "sar") {[ "sar" := l ]}.

Definition heights_only (fs : list Feature) : Layer :=
  mkLayer "WGS84" ["FID"; "Shape"; "HEIGHT"] fs None.

Definition zeros_2x4 : ndarray := [[0; 0; 0; 0]; [0; 0; 0; 0]]%Q.

Definition zeros_2x2 : ndarray := [[0; 0]; [0; 0]]%Q.

Definition singular_matrix : PyExc := mkExc ValueError "Singular matrix".

(** A residual module that answers with the number of scatterers it was
    handed. *)
Definition counting_subres : SubresModule :=
  {| subres_evaluate :=
       fun _ l => Return [[inject_Z (Z.of_nat (length (visible_features l)))]] |}.

(* ------------------------------------------------------------------ *)
(** * Vocabulary of the statements *)

(** The ring that [selectSqueeSARData] builds from an extent. *)
Definition extent_polygon (e : Extent) (spatref : SpatialReference) : Polygon :=
  mkPolygon [lowerLeft e; lowerRight e; upperRight e; upperLeft e; lowerLeft e] spatref.

(** The scatterers of a layer that the host finds within an extent. *)
Definition selected_by `{GeometryEngine} (e : Extent) (l : Layer) : list Feature :=
  List.filter (fun f => within (location f) (extent_polygon e (lyr_spatref l)))
    (lyr_features l).

(** The velocity column of a list of scatterers. *)
Definition velocities (fs : list Feature) : list Q := map (fun f => attr f "VEL") fs.

(** The sum of a list of rationals, by recursion on the list. *)
Fixpoint Qsum (l : list Q) : Q :=
  match l with
  | [] => 0
  | x :: l' => x + Qsum l'
  end.

Definition log_add (ev : list Event) (w : World) : World :=
  set_log (fun log => (log ++ ev)%list) w.

Inductive ToolKind := AverageTool | ResidualTool.

Definition run_tool `{GeometryEngine} `{SubresModule}
    (t : ToolKind) (rect : Extent) : Py unit :=
  match t with
  | AverageTool => AverageDisplacementVelocity.onRectangle rect
  | ResidualTool => SubsidenceResidual.onRectangle rect
  end.

(** The errors of the taxonomy that the code can run into. *)
Inductive TaxonomyError :=
  | NoLayerSelected | EmptySelection | InsufficientScatterers | MissingField.

(** When an invocation of a tool runs into an error of the taxonomy. *)
Definition arises `{GeometryEngine}
    (err : TaxonomyError) (t : ToolKind) (rect : Extent) (w : World) : Prop :=
  match err with
  | NoLayerSelected => w_toc w = None
  | EmptySelection =>
      exists r l, w_toc w = Some r /\ w_layers w !! r = Some l /\
                  selected_by rect l = []
  | InsufficientScatterers =>
      t = ResidualTool /\
      exists r l, w_toc w = Some r /\ w_layers w !! r = Some l /\
                  (1 <= length (selected_by rect l) < 3)%nat
  | MissingField =>
      t = AverageTool /\
      exists r l, w_toc w = Some r /\ w_layers w !! r = Some l /\
                  selected_by rect l <> [] /\ name_in "VEL" (lyr_fields l) = false
  end.

(** The host state once the layer [r], whose state was [l], holds the
    selection made from extent [e]. *)
Definition with_selection `{GeometryEngine}
    (e : Extent) (r : LayerRef) (l : Layer) (w : World) : World :=
  set_layers (<[r := set_selection (Some (selected_by e l)) l]>) w.

Definition no_features_box : Event :=
  EvMessageBox (Text "No features were available within the selection boundaries")
    "Warning" 0.

(** The raster that the residual tool builds from the array [res]. *)
Definition residual_raster (rect : Extent) (l : Layer) (res : ndarray) : Raster :=
  let '(x_len, y_len) := np_shape res in
  mkRaster res (lowerLeft rect)
    (width rect / inject_Z (Z.of_nat x_len)) (height rect / inject_Z (Z.of_nat y_len))
    (Some (lyr_spatref l)).

(** The host state at the end of a residual invocation that went through,
    from the state [w] reached when the output coordinate system was set:
    the raster is stored, its layer is on top of the data frame and the
    selection of layer [r] is cleared. *)
Definition residual_done (rect : Extent) (r : LayerRef) (l : Layer)
    (res : ndarray) (w : World) : World :=
  set_layers (<[r := set_selection None l]>)
    (set_dataframe
       (fun df => mkMapLayer "subsidence" (if w_raster_transparency w then 25 else 0) :: df)
       (set_gdb (<["subsidence" := residual_raster rect l res]>) w)).

Definition select_layer_box : Event :=
  EvMessageBox
    (Text "Select the SqueeSAR layer from the table of content
then select an area to evaluate the residual") "Warning" 0.

Definition missing_field_box : Event :=
  EvMessageBox (Text "Couldn't find the field 'VEL' in the data.") "Error" 0.

Definition three_required_box : Event :=
  EvMessageBox (Text "At least 3 features required within the selection boundaries")
    "Warning" 0.

(** The error of a geoprocessing call on a reference that is no feature
    layer of the map. *)
Definition unknown_dataset : PyExc :=
  mkExc ExecuteError "ERROR 000732: Dataset does not exist or is not supported".

(** The object of a tool, and its [deactivate] method. *)
Definition tool_of (t : ToolKind) (w : World) : Tool :=
  match t with
  | AverageTool => w_avevel_tool w
  | ResidualTool => w_subres_tool w
  end.

Definition deactivate_tool (t : ToolKind) : Py unit :=
  match t with
  | AverageTool => AverageDisplacementVelocity.deactivate
  | ResidualTool => SubsidenceResidual.deactivate
  end.

(** Equality of floats up to the representation of the rational. *)
Definition pyfloat_eq (a b : pyfloat) : Prop :=
  match a, b with
  | Finite x, Finite y => (x == y)%Q
  | NaN, NaN => True
  | _, _ => False
  end.

(** The selection state of a layer of the map, if the layer is there. *)
Definition selection_of (r : LayerRef) (w : World) : option (option (list Feature)) :=
  lyr_selection <$> (w_layers w !! r).

(** A residual module that fails. *)
Definition failing_subres (e : PyExc) : SubresModule :=
  {| subres_evaluate := fun _ _ => Raise e |}.

(* ------------------------------------------------------------------ *)
(** * Basic facts *)

Ltac py_unfold :=
  unfold mbind, mret, Py_bind, Py_ret, bind, ret, raise, gets, modify,
    lift_outcome, try_except in *.

Lemma to_uint_nonnil (n : nat) : Nat.to_uint n <> Decimal.Nil.
Proof.
  rewrite <- (DecimalNat.Unsigned.of_to n) at 1.
  rewrite DecimalNat.Unsigned.to_of.
  unfold Decimal.unorm. destruct (Decimal.nzhead _); discriminate.
Qed.

Lemma count_text_parse (n : nat) :
  NilZero.uint_of_string (count_text n) = Some (Nat.to_uint n).
Proof. apply NilZero.usu, to_uint_nonnil. Qed.

Lemma count_text_zero (n : nat) : String.eqb (count_text n) "0" = true <-> n = O.
Proof.
  rewrite String.eqb_eq. split.
  - intros E. pose proof (count_text_parse n) as P. rewrite E in P.
    simpl in P. injection P as P.
    apply DecimalNat.Unsigned.to_uint_inj. rewrite <- P. reflexivity.
  - intros ->. reflexivity.
Qed.

Lemma count_text_pos (n : nat) : String.eqb (count_text (S n)) "0" = false.
Proof.
  destruct (String.eqb _ _) eqn:E; [|reflexivity].
  apply count_text_zero in E. discriminate.
Qed.

Lemma int_float_count_text (n : nat) (w : World) :
  int_float (count_text n) w = (Return n, w).
Proof.
  unfold int_float. rewrite count_text_parse.
  rewrite DecimalNat.Unsigned.of_to. reflexivity.
Qed.

Lemma get_layer_present (w : World) (r : LayerRef) (l : Layer) :
  w_layers w !! r = Some l -> get_layer (Some r) w = (Return l, w).
Proof. intros E. unfold get_layer. rewrite E. reflexivity. Qed.

Section Selection.
Context `{G : GeometryEngine}.

Lemma selectSqueeSARData_run (w : World) (e : Extent) (r : LayerRef) (l : Layer) :
  w_layers w !! r = Some l ->
  utils.selectSqueeSARData e (Some r) w =
    match selected_by e l with
    | [] => (Raise (mkExc UserWarning "No features!"),
             log_add [no_features_box] (with_selection e r l w))
    | _ :: _ =>
        (Return (length (selected_by e l), lyr_spatref l),
         log_add [EvPrint (SelectedWithin (count_text (length (selected_by e l))) e)]
           (with_selection e r l w))
    end.
Proof.
  intros E. unfold utils.selectSqueeSARData, Describe_spatialReference,
    SelectLayerByLocation_management, GetCount_management_getOutput0, put_layer,
    MessageBox, print.
  py_unfold. rewrite !(get_layer_present w r l E).
  fold (extent_polygon e (lyr_spatref l)). fold (selected_by e l).
  fold (with_selection e r l w).
  assert (L : w_layers (with_selection e r l w) !! r
              = Some (set_selection (Some (selected_by e l)) l)).
  { unfold with_selection. simpl. apply lookup_insert_eq. }
  rewrite (get_layer_present _ _ _ L).
  unfold visible_features. cbn [lyr_selection set_selection].
  fold (count_text (length (selected_by e l))).
  destruct (selected_by e l) as [|f fs] eqn:S.
  - reflexivity.
  - cbn [length]. rewrite count_text_pos. rewrite int_float_count_text.
    reflexivity.
Qed.

End Selection.

Lemma name_in_In (n : string) (names : list string) :
  name_in n names = true <-> In n names.
Proof.
  unfold name_in. rewrite existsb_exists. split.
  - intros (x & I & E). apply String.eqb_eq in E. now subst.
  - intros I. exists n. split; [exact I | apply String.eqb_refl].
Qed.

Lemma all_names_in (names : list string) :
  forallb (fun n => name_in n names) names = true.
Proof. apply forallb_forall. intros n I. now apply name_in_In. Qed.

Lemma verifySqueeSAR_run (w : World) :
  utils.verifySqueeSAR w =
    match w_toc w with
    | Some r => (Return (r, CURRENT), w)
    | None => (Raise (mkExc UserWarning "Invalid layer!"), log_add [select_layer_box] w)
    end.
Proof.
  unfold utils.verifySqueeSAR, GetSelectedTOCLayerOrDataFrame, MessageBox.
  py_unfold. destruct (w_toc w); reflexivity.
Qed.

Lemma evaluate_run (w : World) (r : LayerRef) (l : Layer) :
  w_layers w !! r = Some l ->
  avevel.evaluate (Some r) w =
    if name_in "VEL" (lyr_fields l)
    then (Return (np_average (velocities (visible_features l))), w)
    else (Raise (mkExc ValueError "no field of name VEL"),
          log_add [missing_field_box] w).
Proof.
  intros E. unfold avevel.evaluate, ListFields_names, FeatureClassToNumPyArray,
    getitem, MessageBox.
  py_unfold. rewrite !(get_layer_present w r l E). rewrite all_names_in.
  cbn [dtype_names records].
  destruct (name_in "VEL" (lyr_fields l)); reflexivity.
Qed.

Lemma clear_selection_run (w : World) (r : LayerRef) (l : Layer) :
  w_layers w !! r = Some l ->
  SelectLayerByAttribute_management (Some r) CLEAR_SELECTION w =
    (Return tt, set_layers (<[r := set_selection None l]>) w).
Proof.
  intros E. unfold SelectLayerByAttribute_management, put_layer.
  py_unfold. rewrite (get_layer_present w r l E). reflexivity.
Qed.

Section Tools.
Context `{G : GeometryEngine} `{R : SubresModule}.

(** ** The average displacement velocity tool, path by path *)

Lemma average_no_layer (w : World) (rect : Extent) :
  w_toc w = None ->
  AverageDisplacementVelocity.onRectangle rect w =
    (Raise (mkExc UserWarning "Invalid layer!"), log_add [select_layer_box] w).
Proof.
  intros T. unfold AverageDisplacementVelocity.onRectangle.
  py_unfold. rewrite verifySqueeSAR_run, T. reflexivity.
Qed.

Lemma average_selected (w : World) (rect : Extent) (r : LayerRef) (l : Layer) :
  w_toc w = Some r -> w_layers w !! r = Some l ->
  AverageDisplacementVelocity.onRectangle rect w =
    let w0 := set_avevel_tool (set_sar (Some r)) w in
    let sel := selected_by rect l in
    match sel with
    | [] => (Raise (mkExc UserWarning "No features!"),
             log_add [no_features_box] (with_selection rect r l w0))
    | _ :: _ =>
        let w1 := log_add [EvPrint (SelectedWithin (count_text (length sel)) rect)]
                    (with_selection rect r l w0) in
        if name_in "VEL" (lyr_fields l)
        then (Return tt,
              set_layers (<[r := set_selection None l]>)
                (log_add [EvMessageBox
                            (AverageReport (length sel) rect (np_average (velocities sel)))
                            "Info" 0] w1))
        else (Raise (mkExc ValueError "no field of name VEL"),
              log_add [missing_field_box] w1)
    end.
Proof.
  intros T E. unfold AverageDisplacementVelocity.onRectangle,
    AverageDisplacementVelocity.self_sar.
  py_unfold. rewrite verifySqueeSAR_run, T.
  cbn [exc_matches fst snd w_avevel_tool set_avevel_tool sar set_sar].
  set (w0 := set_avevel_tool (set_sar (Some r)) w).
  assert (E0 : w_layers w0 !! r = Some l) by exact E.
  rewrite (selectSqueeSARData_run w0 rect r l E0).
  destruct (selected_by rect l) as [|f fs] eqn:S; [reflexivity|].
  cbn [exc_matches fst snd w_avevel_tool set_avevel_tool sar set_sar log_add set_log
       with_selection set_layers].
  change (sar (w_avevel_tool w0)) with (Some r).
  match goal with
  | |- context [avevel.evaluate (Some r) ?w1] =>
      assert (E1 : w_layers w1 !! r = Some (set_selection (Some (selected_by rect l)) l))
        by (cbn; apply lookup_insert_eq);
      rewrite (evaluate_run w1 r _ E1)
  end.
  cbn [lyr_fields set_selection].
  destruct (name_in "VEL" (lyr_fields l)).
  - unfold MessageBox. py_unfold.
    match goal with
    | |- SelectLayerByAttribute_management ?a _ ?ww = _ =>
        change a with (Some r);
        rewrite (clear_selection_run ww r
                   (set_selection (Some (selected_by rect l)) l))
          by (cbn; apply lookup_insert_eq)
    end.
    unfold visible_features. cbn [lyr_selection set_selection]. rewrite S.
    reflexivity.
  - reflexivity.
Qed.

(** ** The subsidence residual tool, path by path *)

Lemma residual_no_layer (w : World) (rect : Extent) :
  w_toc w = None ->
  SubsidenceResidual.onRectangle rect w =
    (Raise (mkExc UserWarning "Invalid layer!"), log_add [select_layer_box] w).
Proof.
  intros T. unfold SubsidenceResidual.onRectangle.
  py_unfold. rewrite verifySqueeSAR_run, T. reflexivity.
Qed.

Lemma residual_selected (w : World) (rect : Extent) (r : LayerRef) (l : Layer) :
  w_toc w = Some r -> w_layers w !! r = Some l ->
  SubsidenceResidual.onRectangle rect w =
    let w0 := set_subres_tool (set_sar (Some r)) w in
    let sel := selected_by rect l in
    match sel with
    | [] => (Raise (mkExc UserWarning "No features!"),
             log_add [no_features_box] (with_selection rect r l w0))
    | _ :: _ =>
        let w1 := log_add [EvPrint (SelectedWithin (count_text (length sel)) rect)]
                    (with_selection rect r l w0) in
        if (length sel <? 3)%nat
        then (Return tt, log_add [three_required_box] w1)
        else
          match subres_evaluate rect (set_selection (Some sel) l) with
          | Raise e => (Raise e, w1)
          | Return res =>
              match np_shape res with
              | (S _, S _) =>
                  let w2 := set_outputCoordinateSystem (Some (lyr_spatref l)) w1 in
                  match w_gdb w !! "subsidence", w_overwriteOutput w with
                  | Some _, false =>
                      (Raise (mkExc RuntimeError
                                "ERROR 010240: Could not save raster dataset"), w2)
                  | _, _ => (Return tt, residual_done rect r l res w2)
                  end
              | _ => (Raise (mkExc ZeroDivisionError "float division by zero"), w1)
              end
          end
    end.
Proof.
  intros T E. unfold SubsidenceResidual.onRectangle, SubsidenceResidual.self_sar.
  py_unfold. rewrite verifySqueeSAR_run, T.
  cbn [exc_matches fst snd w_subres_tool set_subres_tool sar set_sar].
  set (w0 := set_subres_tool (set_sar (Some r)) w).
  assert (E0 : w_layers w0 !! r = Some l) by exact E.
  rewrite (selectSqueeSARData_run w0 rect r l E0).
  destruct (selected_by rect l) as [|f fs] eqn:S; [reflexivity|].
  cbn [exc_matches fst snd].
  destruct (length (f :: fs) <? 3)%nat; [reflexivity|].
  unfold subres.evaluate. py_unfold.
  match goal with
  | |- context [get_layer ?a ?w1] =>
      change a with (Some r);
      rewrite (get_layer_present w1 r (set_selection (Some (selected_by rect l)) l))
        by (cbn; apply lookup_insert_eq)
  end.
  rewrite S.
  destruct (subres_evaluate rect (set_selection (Some (f :: fs)) l)) as [res|e];
    [|reflexivity].
  destruct (np_shape res) as [[|a] [|b]] eqn:Sh; try reflexivity.
  unfold truediv at 1 2. py_unfold.
  unfold NumPyArrayToRaster, Raster_save, ListDataFrames_0, mapping_Layer, supports,
    AddLayer.
  py_unfold.
  cbn [w_gdb set_outputCoordinateSystem log_add set_log with_selection set_layers
       w_overwriteOutput w_outputCoordinateSystem].
  change (w_gdb w0) with (w_gdb w). change (w_overwriteOutput w0) with (w_overwriteOutput w).
  destruct (w_gdb w !! "subsidence") as [old|] eqn:Gd;
    [destruct (w_overwriteOutput w) eqn:Ov; [|reflexivity]|].
  all: cbn [w_gdb set_gdb]; rewrite lookup_insert_eq.
  all: match goal with
       | |- SelectLayerByAttribute_management ?s _ ?ww = _ =>
           change s with (Some r);
           rewrite (clear_selection_run ww r
                      (set_selection (Some (selected_by rect l)) l))
             by (cbn; apply lookup_insert_eq)
       end.
  all: unfold residual_done, residual_raster; rewrite Sh.
  all: subst w0;
    cbn [w_raster_transparency set_gdb set_outputCoordinateSystem log_add set_log
         with_selection set_layers set_subres_tool].
  all: destruct (w_raster_transparency w); reflexivity.
Qed.

End Tools.

(* ------------------------------------------------------------------ *)
(** * Errors at the invocation boundary *)

Section Boundary.
Context `{G : GeometryEngine} `{R : SubresModule}.

(** C1.  What [onRectangle] does with each error of the taxonomy.  Only
    the insufficient-scatterers exit returns control normally.  A missing
    layer and an empty selection leave [onRectangle] as [UserWarning]: the
    clauses [except "Invalid layer!"] and [except "No features!"] name a
    string, not the class, and catch nothing.  A missing velocity field
    leaves it as the [ValueError] of the failed field lookup. *)
Theorem taxonomy_errors_at_boundary
    (err : TaxonomyError) (t : ToolKind) (rect : Extent) (w : World) :
  arises err t rect w ->
  (run_tool t rect w).1 =
    match err with
    | NoLayerSelected => Raise (mkExc UserWarning "Invalid layer!")
    | EmptySelection => Raise (mkExc UserWarning "No features!")
    | InsufficientScatterers => Return tt
    | MissingField => Raise (mkExc ValueError "no field of name VEL")
    end.
Proof.
  destruct err; cbn [arises].
  - intros T. destruct t; cbn [run_tool].
    + now rewrite average_no_layer.
    + now rewrite residual_no_layer.
  - intros (r & l & T & E & S). destruct t; cbn [run_tool].
    + rewrite (average_selected w rect r l T E). cbv zeta. now rewrite S.
    + rewrite (residual_selected w rect r l T E). cbv zeta. now rewrite S.
  - intros (-> & r & l & T & E & Lo & Hi). cbn [run_tool].
    rewrite (residual_selected w rect r l T E). cbv zeta.
    destruct (selected_by rect l) as [|f fs]; [cbn in Lo; lia|].
    apply Nat.ltb_lt in Hi. now rewrite Hi.
  - intros (-> & r & l & T & E & S & V). cbn [run_tool].
    rewrite (average_selected w rect r l T E). cbv zeta.
    destruct (selected_by rect l) as [|f fs]; [congruence|].
    now rewrite V.
Qed.

(** C2.  The early exits of the residual tool that follow the selection
    return without clearing it: with fewer than three scatterers in the
    rectangle, the layer still carries the selection made by the query
    when [onRectangle] is left. *)
Theorem residual_early_exit_keeps_selection
    (w : World) (rect : Extent) (r : LayerRef) (l : Layer) :
  w_toc w = Some r -> w_layers w !! r = Some l ->
  (length (selected_by rect l) < 3)%nat ->
  lyr_selection <$> (w_layers (SubsidenceResidual.onRectangle rect w).2 !! r)
    = Some (Some (selected_by rect l)).
Proof.
  intros T E Hi. rewrite (residual_selected w rect r l T E). cbv zeta.
  destruct (selected_by rect l) as [|f fs] eqn:S.
  - cbn. now rewrite lookup_insert_eq, S.
  - apply Nat.ltb_lt in Hi. rewrite Hi. cbn. now rewrite lookup_insert_eq, S.
Qed.

End Boundary.

(** C3.  On a layer without a field named VEL, [avevel.evaluate] shows the
    error box that names the missing field and ends with the exception of
    the field lookup; it returns no average. *)
Theorem evaluate_missing_velocity_field (w : World) (r : LayerRef) (l : Layer) :
  w_layers w !! r = Some l -> ~ In "VEL" (lyr_fields l) ->
  avevel.evaluate (Some r) w =
    (Raise (mkExc ValueError "no field of name VEL"), log_add [missing_field_box] w)
  /\ forall ave_vel, (avevel.evaluate (Some r) w).1 <> Return ave_vel.
Proof.
  intros E V. rewrite (evaluate_run w r l E).
  destruct (name_in "VEL" (lyr_fields l)) eqn:N.
  - apply name_in_In in N. contradiction.
  - split; [reflexivity | discriminate].
Qed.

(* ------------------------------------------------------------------ *)
(** * The residual tool's output *)

Section Residual.
Context `{G : GeometryEngine} `{R : SubresModule}.

(** An invocation of the residual tool that goes through: layer selected,
    at least three scatterers in the rectangle, a residual array with no
    empty axis, and overwriting of datasets enabled. *)
Lemma residual_goes_through
    (w : World) (rect : Extent) (r : LayerRef) (l : Layer) (res : ndarray) (a b : nat) :
  w_toc w = Some r -> w_layers w !! r = Some l ->
  (3 <= length (selected_by rect l))%nat ->
  subres_evaluate rect (set_selection (Some (selected_by rect l)) l) = Return res ->
  np_shape res = (S a, S b) ->
  w_overwriteOutput w = true ->
  SubsidenceResidual.onRectangle rect w =
    (Return tt,
     residual_done rect r l res
       (set_outputCoordinateSystem (Some (lyr_spatref l))
          (log_add [EvPrint (SelectedWithin (count_text (length (selected_by rect l))) rect)]
             (with_selection rect r l (set_subres_tool (set_sar (Some r)) w))))).
Proof.
  intros T E N Ev Sh Ov. rewrite (residual_selected w rect r l T E). cbv zeta.
  destruct (selected_by rect l) as [|f fs] eqn:S; [cbn in N; lia|].
  apply Nat.ltb_ge in N. rewrite N, Ev, Sh, Ov.
  now destruct (w_gdb w !! "subsidence").
Qed.

(** The paths that run to their end do clear the selection. *)
Lemma residual_success_clears_selection
    (w : World) (rect : Extent) (r : LayerRef) (l : Layer) (res : ndarray) (a b : nat) :
  w_toc w = Some r -> w_layers w !! r = Some l ->
  (3 <= length (selected_by rect l))%nat ->
  subres_evaluate rect (set_selection (Some (selected_by rect l)) l) = Return res ->
  np_shape res = (S a, S b) ->
  w_overwriteOutput w = true ->
  lyr_selection <$> (w_layers (SubsidenceResidual.onRectangle rect w).2 !! r)
    = Some None.
Proof.
  intros T E N Ev Sh Ov.
  rewrite (residual_goes_through w rect r l res a b T E N Ev Sh Ov).
  cbn. now rewrite lookup_insert_eq.
Qed.

Lemma average_success_clears_selection
    (w : World) (rect : Extent) (r : LayerRef) (l : Layer) :
  w_toc w = Some r -> w_layers w !! r = Some l ->
  selected_by rect l <> [] -> In "VEL" (lyr_fields l) ->
  (AverageDisplacementVelocity.onRectangle rect w).1 = Return tt /\
  lyr_selection <$> (w_layers (AverageDisplacementVelocity.onRectangle rect w).2 !! r)
    = Some None.
Proof.
  intros T E N V. rewrite (average_selected w rect r l T E). cbv zeta.
  destruct (selected_by rect l) as [|f fs]; [congruence|].
  apply name_in_In in V. rewrite V. cbn. now rewrite lookup_insert_eq.
Qed.

(** C4.  The cell sizes handed to the raster output.  [np.shape] yields
    (rows, columns), and [onRectangle] divides the extent's width by the
    first of the two and its height by the second: the cell width is
    width / rows and the cell height is height / columns. *)
Theorem residual_cell_sizes
    (w : World) (rect : Extent) (r : LayerRef) (l : Layer)
    (res : ndarray) (rows cols : nat) :
  w_toc w = Some r -> w_layers w !! r = Some l ->
  (3 <= length (selected_by rect l))%nat ->
  subres_evaluate rect (set_selection (Some (selected_by rect l)) l) = Return res ->
  np_shape res = (S rows, S cols) ->
  w_overwriteOutput w = true ->
  (SubsidenceResidual.onRectangle rect w).1 = Return tt /\
  exists raster,
    w_gdb (SubsidenceResidual.onRectangle rect w).2 !! "subsidence" = Some raster /\
    ras_data raster = res /\
    ras_x_cell_size raster = (width rect / inject_Z (Z.of_nat (S rows)))%Q /\
    ras_y_cell_size raster = (height rect / inject_Z (Z.of_nat (S cols)))%Q.
Proof.
  intros T E N Ev Sh Ov.
  rewrite (residual_goes_through w rect r l res rows cols T E N Ev Sh Ov).
  split; [reflexivity|].
  exists (residual_raster rect l res). split.
  - cbn. apply lookup_insert_eq.
  - unfold residual_raster. rewrite Sh. auto.
Qed.

(** C10.  Tool initialisation enables the overwriting of datasets, and an
    invocation that goes through with overwriting enabled stores its raster
    under the name subsidence, whatever the geodatabase held under that name
    before; no other dataset changes and overwriting stays enabled for the
    next invocation.  The name is a literal of [onRectangle], which takes
    the rectangle as its only argument. *)
Theorem subsidence_raster_replaced
    (w0 w : World) (rect : Extent) (r : LayerRef) (l : Layer)
    (res : ndarray) (a b : nat) :
  w_overwriteOutput (SubsidenceResidual.__init__ w0).2 = true /\
  (w_overwriteOutput w = true ->
   w_toc w = Some r -> w_layers w !! r = Some l ->
   (3 <= length (selected_by rect l))%nat ->
   subres_evaluate rect (set_selection (Some (selected_by rect l)) l) = Return res ->
   np_shape res = (S a, S b) ->
   (SubsidenceResidual.onRectangle rect w).1 = Return tt /\
   w_gdb (SubsidenceResidual.onRectangle rect w).2
     = <["subsidence" := residual_raster rect l res]> (w_gdb w) /\
   w_overwriteOutput (SubsidenceResidual.onRectangle rect w).2 = true).
Proof.
  split; [reflexivity|].
  intros Ov T E N Ev Sh.
  rewrite (residual_goes_through w rect r l res a b T E N Ev Sh Ov).
  cbn. auto.
Qed.

(** C7.  With fewer than three scatterers in the rectangle the residual
    tool warns the user and stops before anything is computed or stored:
    the geodatabase and the data frame are as before.  With one or two
    scatterers the warning is the three-features one and [onRectangle]
    returns; with none it is the no-features one of the selection step.
    The average tool has no such minimum: with one scatterer or more and
    a velocity field it reports the average. *)
Theorem fewer_than_three_scatterers
    (w : World) (rect : Extent) (r : LayerRef) (l : Layer) :
  w_toc w = Some r -> w_layers w !! r = Some l ->
  (length (selected_by rect l) < 3)%nat ->
  let sel := selected_by rect l in
  let printed := EvPrint (SelectedWithin (count_text (length sel)) rect) in
  let res := SubsidenceResidual.onRectangle rect w in
  let ave := AverageDisplacementVelocity.onRectangle rect w in
  w_gdb res.2 = w_gdb w /\ w_dataframe res.2 = w_dataframe w /\
  ((1 <= length sel)%nat ->
     res.1 = Return tt /\
     w_log res.2 = (w_log w ++ [printed; three_required_box])%list) /\
  (length sel = O ->
     res.1 = Raise (mkExc UserWarning "No features!") /\
     w_log res.2 = (w_log w ++ [no_features_box])%list) /\
  ((1 <= length sel)%nat -> In "VEL" (lyr_fields l) ->
     ave.1 = Return tt /\
     w_log ave.2 =
       (w_log w ++ [printed;
                    EvMessageBox (AverageReport (length sel) rect
                                    (np_average (velocities sel))) "Info" 0])%list).
Proof.
  intros T E Hi. cbv zeta.
  rewrite (residual_selected w rect r l T E), (average_selected w rect r l T E).
  cbv zeta. destruct (selected_by rect l) as [|f fs] eqn:S.
  - cbn. repeat split; try reflexivity; intros; lia.
  - apply Nat.ltb_lt in Hi. rewrite Hi. cbn [fst snd].
    split; [reflexivity|]. split; [reflexivity|].
    split; [intros _; split; [reflexivity | cbn; now rewrite <- app_assoc]|].
    split; [discriminate|].
    intros _ V. apply name_in_In in V. rewrite V.
    split; [reflexivity | cbn; now rewrite <- app_assoc].
Qed.

End Residual.

(* ------------------------------------------------------------------ *)
(** * The selection step *)

Section SelectionClaims.
Context `{G : GeometryEngine}.

(** C5.  What the residual tool hands to the trend fit.  The invocation
    consults the residual module at one point only: the rectangle as drawn
    and the layer whose selection is the set of scatterers within that
    rectangle.  Two residual modules that agree there make the whole
    invocation agree, so no scatterer outside the drawn rectangle is ever
    handed over and no margin enters. *)
Theorem residual_fit_sees_drawn_extent
    (R1 R2 : SubresModule) (w : World) (rect : Extent) (r : LayerRef) (l : Layer) :
  w_toc w = Some r -> w_layers w !! r = Some l ->
  @subres_evaluate R1 rect (set_selection (Some (selected_by rect l)) l)
    = @subres_evaluate R2 rect (set_selection (Some (selected_by rect l)) l) ->
  @SubsidenceResidual.onRectangle G R1 rect w
    = @SubsidenceResidual.onRectangle G R2 rect w.
Proof.
  intros T E A.
  rewrite (@residual_selected G R1 w rect r l T E).
  rewrite (@residual_selected G R2 w rect r l T E).
  cbv zeta. destruct (selected_by rect l) as [|f fs]; [reflexivity|].
  now rewrite A.
Qed.

(** C6, in the form that holds of the code.  The selection step has one
    failure of its own: when
    no scatterer lies within the extent it shows the no-features warning
    and raises [UserWarning]; it never returns a count of zero.  Otherwise
    it returns the number of scatterers found, duplicates included, with
    the layer's spatial reference.  Either way the layer's selection becomes
    the set of scatterers found. *)
Theorem selectSqueeSARData_outcomes
    (w : World) (e : Extent) (r : LayerRef) (l : Layer) :
  w_layers w !! r = Some l ->
  let sel := selected_by e l in
  let out := utils.selectSqueeSARData e (Some r) w in
  w_layers out.2 = <[r := set_selection (Some sel) l]> (w_layers w) /\
  (sel = [] ->
     out.1 = Raise (mkExc UserWarning "No features!") /\
     w_log out.2 = (w_log w ++ [no_features_box])%list) /\
  (sel <> [] -> out.1 = Return (length sel, lyr_spatref l)) /\
  (forall spatref, out.1 <> Return (O, spatref)).
Proof.
  intros E. cbv zeta. rewrite (selectSqueeSARData_run w e r l E).
  destruct (selected_by e l) as [|f fs] eqn:S.
  - cbn. rewrite S. split; [reflexivity|]. split; [intros _; split; reflexivity|].
    split; [intros C; now destruct C | discriminate].
  - cbn. rewrite S. split; [reflexivity|]. split; [discriminate|].
    split; [reflexivity | discriminate].
Qed.

(** C9.  The outcomes of [selectSqueeSARData] split on the count that the
    layer reports after the query: when it returns, the count it returns is
    the reported one and is at least 1; when it raises, the reported count
    is 0 and the exception is the no-features [UserWarning]. *)
Theorem selectSqueeSARData_count_partition
    (w : World) (e : Extent) (r : LayerRef) (l : Layer) :
  w_layers w !! r = Some l ->
  let out := utils.selectSqueeSARData e (Some r) w in
  let reported := (GetCount_management_getOutput0 (Some r) out.2).1 in
  match out.1 with
  | Return (nfeat, _) =>
      (1 <= nfeat)%nat /\ reported = Return (count_text nfeat) /\
      reported <> Return "0"
  | Raise exc =>
      reported = Return "0" /\ exc = mkExc UserWarning "No features!"
  end.
Proof.
  intros E. cbv zeta. rewrite (selectSqueeSARData_run w e r l E).
  unfold GetCount_management_getOutput0. py_unfold.
  destruct (selected_by e l) as [|f fs] eqn:S; cbn [fst snd].
  - erewrite get_layer_present by (cbn; apply lookup_insert_eq).
    unfold visible_features. cbn [lyr_selection set_selection]. rewrite S.
    split; reflexivity.
  - erewrite get_layer_present by (cbn; apply lookup_insert_eq).
    unfold visible_features. cbn [lyr_selection set_selection fst]. rewrite S.
    fold (count_text (length (f :: fs))).
    split; [cbn; lia|]. split; [reflexivity|].
    intros [= A]. apply String.eqb_eq in A.
    cbn [length] in A. rewrite count_text_pos in A. discriminate.
Qed.

End SelectionClaims.

(* ------------------------------------------------------------------ *)
(** * The average velocity *)

Lemma np_sum_from (l : list Q) (acc : Q) : (fold_left Qplus l acc == acc + Qsum l)%Q.
Proof.
  revert acc. induction l as [|x l IH]; intros acc; cbn [fold_left Qsum].
  - ring.
  - rewrite IH. ring.
Qed.

Lemma np_sum_Qsum (l : list Q) : (np_sum l == Qsum l)%Q.
Proof. unfold np_sum. rewrite np_sum_from. ring. Qed.

Lemma Qsum_constant (l : list Q) (v : Q) :
  Forall (fun x => x == v)%Q l ->
  (Qsum l == v * inject_Z (Z.of_nat (length l)))%Q.
Proof.
  induction 1 as [|x l Hx _ IH]; cbn [Qsum length].
  - ring.
  - rewrite IH, Hx, Nat2Z.inj_succ. unfold Z.succ. rewrite inject_Z_plus. ring.
Qed.

Lemma Qsum_pointwise (l l' : list Q) : Forall2 Qeq l l' -> (Qsum l == Qsum l')%Q.
Proof.
  induction 1 as [|x y l l' Hx _ IH]; cbn [Qsum]; [reflexivity|].
  now rewrite Hx, IH.
Qed.

Lemma count_nonzero (n : nat) : ~ (inject_Z (Z.of_nat (S n)) == 0)%Q.
Proof. unfold Qeq. cbn. lia. Qed.

(** C8.  On a layer that has the field VEL and at least one visible
    scatterer, [avevel.evaluate] returns the arithmetic mean of the
    velocities: a number whose product with the number of scatterers is
    their sum.  Over scatterers that all have velocity [v] it is [v], and
    over velocities 1, 2, 3 it is 2. *)
Theorem evaluate_arithmetic_mean (w : World) (r : LayerRef) (l : Layer) :
  w_layers w !! r = Some l -> In "VEL" (lyr_fields l) ->
  visible_features l <> [] ->
  let vel := velocities (visible_features l) in
  exists ave_vel : Q,
    avevel.evaluate (Some r) w = (Return (Finite ave_vel), w) /\
    (ave_vel * inject_Z (Z.of_nat (length vel)) == Qsum vel)%Q /\
    (forall v, Forall (fun x => x == v)%Q vel -> (ave_vel == v)%Q) /\
    (Forall2 Qeq vel [1; 2; 3]%Q -> (ave_vel == 2)%Q).
Proof.
  intros E V N. cbv zeta. rewrite (evaluate_run w r l E).
  apply name_in_In in V. rewrite V.
  destruct (visible_features l) as [|f fs]; [congruence|].
  set (vel := velocities (f :: fs)).
  assert (L : length vel = S (length fs)) by (unfold vel, velocities; now rewrite length_map).
  exists (np_sum vel / inject_Z (Z.of_nat (length vel)))%Q.
  assert (M : (np_sum vel / inject_Z (Z.of_nat (length vel))
               * inject_Z (Z.of_nat (length vel)) == Qsum vel)%Q).
  { rewrite np_sum_Qsum. rewrite L. field. apply count_nonzero. }
  split; [reflexivity|]. split; [exact M|]. split.
  - intros v A. rewrite np_sum_Qsum, (Qsum_constant vel v A), L.
    field. apply count_nonzero.
  - intros A. rewrite np_sum_Qsum, (Qsum_pointwise _ _ A).
    rewrite (Forall2_length _ _ _ A). reflexivity.
Qed.

(* ------------------------------------------------------------------ *)
(** * The theorems at concrete maps *)

Lemma taxonomy_errors_at_boundary_witness :
  let run := @run_tool box_geometry (fixed_subres zeros_2x4) in
  (run AverageTool unit_square (arcmap None ∅)).1
    = Raise (mkExc UserWarning "Invalid layer!") /\
  (run ResidualTool unit_square (sar_map (squeesar [scatterer 2 2 1]))).1
    = Raise (mkExc UserWarning "No features!") /\
  (run ResidualTool unit_square (sar_map (squeesar [scatterer 0 0 1; scatterer 1 1 1]))).1
    = Return tt /\
  (run AverageTool unit_square (sar_map (heights_only on_plane))).1
    = Raise (mkExc ValueError "no field of name VEL").
Proof.
  cbv zeta. split; [|split; [|split]].
  - apply (taxonomy_errors_at_boundary (G := box_geometry) NoLayerSelected).
    reflexivity.
  - apply (taxonomy_errors_at_boundary (G := box_geometry) EmptySelection).
    exists "sar", (squeesar [scatterer 2 2 1]).
    split; [reflexivity|]. split; reflexivity.
  - apply (taxonomy_errors_at_boundary (G := box_geometry) InsufficientScatterers).
    split; [reflexivity|].
    exists "sar", (squeesar [scatterer 0 0 1; scatterer 1 1 1]).
    split; [reflexivity|]. split; [reflexivity|]. vm_compute. lia.
  - apply (taxonomy_errors_at_boundary (G := box_geometry) MissingField).
    split; [reflexivity|].
    exists "sar", (heights_only on_plane).
    split; [reflexivity|]. split; [reflexivity|]. split; [|reflexivity].
    vm_compute. discriminate.
Defined.

Lemma residual_early_exit_keeps_selection_witness :
  let two := [scatterer 0 0 1; scatterer 1 1 1] in
  let w := sar_map (squeesar (two ++ [scatterer 2 2 1])) in
  let w' := (@SubsidenceResidual.onRectangle box_geometry (fixed_subres zeros_2x4)
               unit_square w).2 in
  lyr_selection <$> (w_layers w' !! "sar") = Some (Some two).
Proof.
  cbv zeta.
  apply (residual_early_exit_keeps_selection (G := box_geometry)
           _ unit_square "sar"
           (squeesar [scatterer 0 0 1; scatterer 1 1 1; scatterer 2 2 1])).
  - reflexivity.
  - reflexivity.
  - vm_compute. lia.
Defined.

Lemma evaluate_missing_velocity_field_witness :
  avevel.evaluate (Some "sar") (sar_map (heights_only on_plane)) =
    (Raise (mkExc ValueError "no field of name VEL"),
     log_add [missing_field_box] (sar_map (heights_only on_plane))).
Proof.
  apply (evaluate_missing_velocity_field _ "sar" (heights_only on_plane)).
  - reflexivity.
  - simpl. intros [C|[C|[C|C]]]; try discriminate C. exact C.
Defined.

Lemma residual_cell_sizes_witness :
  let out := @SubsidenceResidual.onRectangle box_geometry (fixed_subres zeros_2x4)
               (mkExtent 0 0 8 8) (sar_map (squeesar on_plane)) in
  out.1 = Return tt /\
  exists raster,
    w_gdb out.2 !! "subsidence" = Some raster /\
    ras_data raster = zeros_2x4 /\
    (ras_x_cell_size raster == 4)%Q /\ (ras_y_cell_size raster == 2)%Q.
Proof.
  cbv zeta.
  destruct (residual_cell_sizes (G := box_geometry) (R := fixed_subres zeros_2x4)
              (sar_map (squeesar on_plane)) (mkExtent 0 0 8 8) "sar"
              (squeesar on_plane) zeros_2x4 1 3)
    as (Ok & raster & Stored & Data & Xs & Ys).
  - reflexivity.
  - reflexivity.
  - vm_compute. lia.
  - reflexivity.
  - reflexivity.
  - reflexivity.
  - split; [exact Ok|]. exists raster.
    split; [exact Stored|]. split; [exact Data|].
    rewrite Xs, Ys. split; reflexivity.
Defined.

Lemma residual_fit_sees_drawn_extent_witness :
  let w := sar_map (squeesar (on_plane ++ [scatterer (3 # 2) (1 # 2) 9])) in
  @SubsidenceResidual.onRectangle box_geometry counting_subres unit_square w
    = @SubsidenceResidual.onRectangle box_geometry (fixed_subres [[3%Q]]) unit_square w.
Proof.
  cbv zeta.
  apply (residual_fit_sees_drawn_extent (G := box_geometry)
           counting_subres (fixed_subres [[3%Q]]) _ unit_square "sar"
           (squeesar (on_plane ++ [scatterer (3 # 2) (1 # 2) 9]))).
  - reflexivity.
  - reflexivity.
  - reflexivity.
Defined.

(** C6, counterexample.  A query that matches no scatterer does not return
    an empty selection with count 0: it raises. *)
Lemma selectSqueeSARData_zero_match_raises :
  let w := sar_map (squeesar [scatterer 2 2 1]) in
  @selected_by box_geometry unit_square (squeesar [scatterer 2 2 1]) = [] /\
  (@utils.selectSqueeSARData box_geometry unit_square (Some "sar") w).1
    = Raise (mkExc UserWarning "No features!") /\
  ~ exists spatref,
      (@utils.selectSqueeSARData box_geometry unit_square (Some "sar") w).1
        = Return (O, spatref).
Proof.
  cbv zeta. split; [reflexivity|]. split; [reflexivity|].
  intros (spatref & C). vm_compute in C. discriminate C.
Qed.

Lemma selectSqueeSARData_outcomes_witness :
  let w := sar_map (squeesar (on_plane ++ [scatterer 2 2 1])) in
  let out := @utils.selectSqueeSARData box_geometry unit_square (Some "sar") w in
  out.1 = Return (3%nat, "WGS84") /\
  w_layers out.2 = <["sar" := set_selection (Some on_plane)
                                (squeesar (on_plane ++ [scatterer 2 2 1]))]> (w_layers w).
Proof.
  cbv zeta.
  destruct (selectSqueeSARData_outcomes (G := box_geometry)
              (sar_map (squeesar (on_plane ++ [scatterer 2 2 1]))) unit_square "sar"
              (squeesar (on_plane ++ [scatterer 2 2 1])))
    as (Sel & _ & Found & _).
  - reflexivity.
  - split; [apply Found; vm_compute; discriminate | exact Sel].
Defined.

Lemma selectSqueeSARData_count_partition_witness :
  let w := sar_map (squeesar on_plane) in
  let out := @utils.selectSqueeSARData box_geometry unit_square (Some "sar") w in
  out.1 = Return (3%nat, "WGS84") /\
  (GetCount_management_getOutput0 (Some "sar") out.2).1 = Return "3".
Proof.
  cbv zeta.
  pose proof (selectSqueeSARData_count_partition (G := box_geometry)
                (sar_map (squeesar on_plane)) unit_square "sar" (squeesar on_plane))
    as P.
  cbv zeta in P.
  destruct (@utils.selectSqueeSARData box_geometry unit_square (Some "sar")
              (sar_map (squeesar on_plane))).1 as [[n s]|exc] eqn:O.
  - destruct P as (_ & Rep & _); [reflexivity|].
    vm_compute in O. injection O as <- <-. split; [reflexivity | exact Rep].
  - vm_compute in O. discriminate O.
Defined.

Lemma fewer_than_three_scatterers_witness :
  let w := sar_map (squeesar [scatterer 0 0 1; scatterer 1 1 3; scatterer 2 2 1]) in
  let res := @SubsidenceResidual.onRectangle box_geometry (fixed_subres zeros_2x4)
               unit_square w in
  let ave := @AverageDisplacementVelocity.onRectangle box_geometry unit_square w in
  res.1 = Return tt /\ w_gdb res.2 = ∅ /\ ave.1 = Return tt.
Proof.
  cbv zeta.
  destruct (fewer_than_three_scatterers (G := box_geometry) (R := fixed_subres zeros_2x4)
              (sar_map (squeesar [scatterer 0 0 1; scatterer 1 1 3; scatterer 2 2 1]))
              unit_square "sar"
              (squeesar [scatterer 0 0 1; scatterer 1 1 3; scatterer 2 2 1]))
    as (Gdb & _ & Few & _ & Ave).
  - reflexivity.
  - reflexivity.
  - vm_compute. lia.
  - split; [apply Few; vm_compute; lia|].
    split; [exact Gdb|].
    apply Ave; [vm_compute; lia | simpl; auto].
Defined.

Lemma evaluate_arithmetic_mean_witness :
  let w := sar_map (squeesar [scatterer 0 0 1; scatterer 1 0 2; scatterer 0 1 3]) in
  exists ave_vel : Q,
    avevel.evaluate (Some "sar") w = (Return (Finite ave_vel), w) /\ (ave_vel == 2)%Q.
Proof.
  cbv zeta.
  destruct (evaluate_arithmetic_mean
              (sar_map (squeesar [scatterer 0 0 1; scatterer 1 0 2; scatterer 0 1 3]))
              "sar" (squeesar [scatterer 0 0 1; scatterer 1 0 2; scatterer 0 1 3]))
    as (ave_vel & Run & _ & _ & Two).
  - reflexivity.
  - simpl. auto.
  - discriminate.
  - exists ave_vel. split; [exact Run|].
    apply Two. repeat constructor.
Defined.

Lemma subsidence_raster_replaced_witness :
  let G := box_geometry in
  let R := fixed_subres zeros_2x4 in
  let w0 := sar_map (squeesar on_plane) in
  let w1 := (SubsidenceResidual.__init__ w0).2 in
  let w2 := (SubsidenceResidual.onRectangle unit_square w1).2 in
  let w3 := (SubsidenceResidual.onRectangle (mkExtent 0 0 8 8) w2).2 in
  w_gdb w2 !! "subsidence" = Some (residual_raster unit_square (squeesar on_plane) zeros_2x4) /\
  w_gdb w3 !! "subsidence"
    = Some (residual_raster (mkExtent 0 0 8 8) (squeesar on_plane) zeros_2x4).
Proof.
  cbv zeta. split; [reflexivity|].
  destruct (subsidence_raster_replaced (G := box_geometry) (R := fixed_subres zeros_2x4)
              (sar_map (squeesar on_plane))
              (@SubsidenceResidual.onRectangle box_geometry (fixed_subres zeros_2x4)
                 unit_square (SubsidenceResidual.__init__ (sar_map (squeesar on_plane))).2).2
              (mkExtent 0 0 8 8) "sar" (squeesar on_plane) zeros_2x4 1 3)
    as (_ & Again).
  destruct Again as (_ & Stored & _).
  - reflexivity.
  - reflexivity.
  - reflexivity.
  - vm_compute. lia.
  - reflexivity.
  - reflexivity.
  - rewrite Stored. apply lookup_insert_eq.
Defined.

(* ------------------------------------------------------------------ *)
(** * Further properties of the selection step *)

Section SelectionMore.
Context `{G : GeometryEngine}.

Lemma selectSqueeSARData_unknown (w : World) (e : Extent) (r : LayerRef) :
  w_layers w !! r = None ->
  utils.selectSqueeSARData e (Some r) w = (Raise unknown_dataset, w).
Proof.
  intros E. unfold utils.selectSqueeSARData, Describe_spatialReference, get_layer.
  py_unfold. rewrite E. reflexivity.
Qed.

Lemma selected_by_set_selection (e : Extent) (l : Layer) (sel : option (list Feature)) :
  selected_by e (set_selection sel l) = selected_by e l.
Proof. reflexivity. Qed.

(** X1.  A query makes a new selection: what a second query returns, and the
    selection it leaves on the layers, do not depend on the query that came
    before it.  In particular the same query twice gives the same count and
    the same selection. *)
Theorem selectSqueeSARData_new_selection
    (w : World) (e1 e2 : Extent) (r : LayerRef) (l : Layer) :
  w_layers w !! r = Some l ->
  let first := utils.selectSqueeSARData e1 (Some r) w in
  let second := utils.selectSqueeSARData e2 (Some r) first.2 in
  let direct := utils.selectSqueeSARData e2 (Some r) w in
  second.1 = direct.1 /\ w_layers second.2 = w_layers direct.2.
Proof.
  intros E. cbv zeta.
  rewrite (selectSqueeSARData_run w e1 r l E).
  rewrite (selectSqueeSARData_run w e2 r l E).
  assert (E1 : forall ev,
             w_layers (log_add ev (with_selection e1 r l w)) !! r
             = Some (set_selection (Some (selected_by e1 l)) l))
    by (intros ev; cbn; apply lookup_insert_eq).
  assert (W : forall ev ev',
             w_layers (log_add ev'
                         (with_selection e2 r (set_selection (Some (selected_by e1 l)) l)
                            (log_add ev (with_selection e1 r l w))))
             = w_layers (log_add ev' (with_selection e2 r l w))).
  { intros ev ev'. unfold log_add, set_log, with_selection, set_layers.
    cbn [w_layers]. rewrite insert_insert_eq. reflexivity. }
  destruct (selected_by e1 l) as [|f1 fs1] eqn:S1; cbn [snd];
    rewrite (selectSqueeSARData_run _ e2 r _ (E1 _));
    rewrite selected_by_set_selection;
    destruct (selected_by e2 l) as [|f2 fs2] eqn:S2; cbn [fst snd];
    (split; [reflexivity | apply W]).
Qed.

(** X2.  The selection step changes one thing in the map, the selection of the
    layer it is given: that layer keeps its scatterers, fields and spatial
    reference, every other layer is as before, and so are the geodatabase,
    the data frame, the environment settings and the tool objects.  The user
    sees exactly one line more: the warning box or the printed count. *)
Theorem selectSqueeSARData_frame
    (w : World) (e : Extent) (r : LayerRef) (l : Layer) :
  w_layers w !! r = Some l ->
  let w' := (utils.selectSqueeSARData e (Some r) w).2 in
  (exists l', w_layers w' !! r = Some l' /\
              lyr_features l' = lyr_features l /\ lyr_fields l' = lyr_fields l /\
              lyr_spatref l' = lyr_spatref l) /\
  (forall r', r' <> r -> w_layers w' !! r' = w_layers w !! r') /\
  w_gdb w' = w_gdb w /\ w_dataframe w' = w_dataframe w /\
  w_overwriteOutput w' = w_overwriteOutput w /\
  w_addOutputsToMap w' = w_addOutputsToMap w /\
  w_outputCoordinateSystem w' = w_outputCoordinateSystem w /\
  w_toc w' = w_toc w /\
  w_avevel_tool w' = w_avevel_tool w /\ w_subres_tool w' = w_subres_tool w /\
  exists ev, w_log w' = (w_log w ++ [ev])%list.
Proof.
  intros E. cbv zeta. rewrite (selectSqueeSARData_run w e r l E).
  destruct (selected_by e l) as [|f fs]; cbn.
  all: split; [eexists; split; [apply lookup_insert_eq | auto]|].
  all: split; [intros r' N; now apply lookup_insert_ne|].
  all: repeat (split; [reflexivity|]); eexists; reflexivity.
Qed.

End SelectionMore.

(* ------------------------------------------------------------------ *)
(** * Further properties of the average velocity *)

(** X3.  [avevel.evaluate] has no guard of its own against an empty selection:
    on a layer whose selection set is empty it shows nothing, raises nothing
    and returns [nan]. *)
Theorem evaluate_empty_selection (w : World) (r : LayerRef) (l : Layer) :
  w_layers w !! r = Some l -> In "VEL" (lyr_fields l) ->
  lyr_selection l = Some [] ->
  avevel.evaluate (Some r) w = (Return NaN, w).
Proof.
  intros E V S. rewrite (evaluate_run w r l E).
  apply name_in_In in V. rewrite V.
  unfold visible_features. now rewrite S.
Qed.

Lemma Qsum_permutation (l l' : list Q) : Permutation l l' -> (Qsum l == Qsum l')%Q.
Proof.
  induction 1 as [|x l l' _ IH|x y l|l l' l'' _ IH1 _ IH2]; cbn [Qsum].
  - reflexivity.
  - now rewrite IH.
  - ring.
  - now rewrite IH1.
Qed.

Lemma Qsum_bounds (l : list Q) (lo hi : Q) :
  Forall (fun x => lo <= x /\ x <= hi)%Q l ->
  (lo * inject_Z (Z.of_nat (length l)) <= Qsum l /\
   Qsum l <= hi * inject_Z (Z.of_nat (length l)))%Q.
Proof.
  induction 1 as [|x l [Hlo Hhi] _ [IHlo IHhi]]; cbn [Qsum length].
  - change (inject_Z (Z.of_nat 0)) with 0%Q. split; lra.
  - rewrite Nat2Z.inj_succ. unfold Z.succ. rewrite inject_Z_plus.
    change (inject_Z 1) with 1%Q. split; lra.
Qed.

Lemma count_positive (n : nat) : (0 < inject_Z (Z.of_nat (S n)))%Q.
Proof. unfold Qlt. cbn. lia. Qed.

(** X4.  The average does not depend on the order in which the host hands over
    the scatterers: two layers with the field VEL whose visible scatterers
    are a permutation of each other get the same average. *)
Theorem evaluate_order_independent
    (w1 w2 : World) (r1 r2 : LayerRef) (l1 l2 : Layer) :
  w_layers w1 !! r1 = Some l1 -> w_layers w2 !! r2 = Some l2 ->
  In "VEL" (lyr_fields l1) -> In "VEL" (lyr_fields l2) ->
  Permutation (visible_features l1) (visible_features l2) ->
  exists a b,
    avevel.evaluate (Some r1) w1 = (Return a, w1) /\
    avevel.evaluate (Some r2) w2 = (Return b, w2) /\
    pyfloat_eq a b.
Proof.
  intros E1 E2 V1 V2 P.
  rewrite (evaluate_run w1 r1 l1 E1), (evaluate_run w2 r2 l2 E2).
  apply name_in_In in V1, V2. rewrite V1, V2.
  eexists. eexists. split; [reflexivity|]. split; [reflexivity|].
  assert (PV : Permutation (velocities (visible_features l1))
                 (velocities (visible_features l2)))
    by (unfold velocities; now apply Permutation_map).
  pose proof (Permutation_length PV) as L.
  destruct (velocities (visible_features l1)) as [|x xs] eqn:V1';
    destruct (velocities (visible_features l2)) as [|y ys] eqn:V2';
    try discriminate L.
  - exact I.
  - cbn [np_average pyfloat_eq].
    rewrite !np_sum_Qsum, (Qsum_permutation _ _ PV), L. reflexivity.
Qed.

(** X5.  The average lies between the smallest and the largest velocity: when
    every visible scatterer has its velocity in [lo, hi], so has the
    value returned. *)
Theorem evaluate_within_bounds
    (w : World) (r : LayerRef) (l : Layer) (lo hi : Q) :
  w_layers w !! r = Some l -> In "VEL" (lyr_fields l) ->
  visible_features l <> [] ->
  Forall (fun f => lo <= attr f "VEL" /\ attr f "VEL" <= hi)%Q (visible_features l) ->
  exists ave_vel : Q,
    avevel.evaluate (Some r) w = (Return (Finite ave_vel), w) /\
    (lo <= ave_vel /\ ave_vel <= hi)%Q.
Proof.
  intros E V N B. rewrite (evaluate_run w r l E).
  apply name_in_In in V. rewrite V.
  assert (BV : Forall (fun x => lo <= x /\ x <= hi)%Q (velocities (visible_features l))).
  { unfold velocities. apply Forall_map. exact B. }
  destruct (visible_features l) as [|f fs]; [congruence|].
  set (vel := velocities (f :: fs)) in *.
  assert (L : length vel = S (length fs))
    by (unfold vel, velocities; now rewrite length_map).
  exists (np_sum vel / inject_Z (Z.of_nat (length vel)))%Q.
  split; [reflexivity|].
  destruct (Qsum_bounds vel lo hi BV) as [Lo Hi].
  rewrite L in *. split.
  - apply Qle_shift_div_l; [apply count_positive|]. now rewrite np_sum_Qsum.
  - apply Qle_shift_div_r; [apply count_positive|]. now rewrite np_sum_Qsum.
Qed.

(* ------------------------------------------------------------------ *)
(** * Further properties of the two tools *)

Ltac case_all :=
  repeat match goal with
         | |- context [match ?x with _ => _ end] => destruct x
         end.

Section ToolsMore.
Context `{G : GeometryEngine} `{R : SubresModule}.

Lemma average_unknown_layer (w : World) (rect : Extent) (r : LayerRef) :
  w_toc w = Some r -> w_layers w !! r = None ->
  AverageDisplacementVelocity.onRectangle rect w =
    (Raise unknown_dataset, set_avevel_tool (set_sar (Some r)) w).
Proof.
  intros T E. unfold AverageDisplacementVelocity.onRectangle,
    AverageDisplacementVelocity.self_sar.
  py_unfold. rewrite verifySqueeSAR_run, T.
  cbn [exc_matches fst snd w_avevel_tool set_avevel_tool sar set_sar].
  rewrite selectSqueeSARData_unknown by exact E. reflexivity.
Qed.

Lemma residual_unknown_layer (w : World) (rect : Extent) (r : LayerRef) :
  w_toc w = Some r -> w_layers w !! r = None ->
  SubsidenceResidual.onRectangle rect w =
    (Raise unknown_dataset, set_subres_tool (set_sar (Some r)) w).
Proof.
  intros T E. unfold SubsidenceResidual.onRectangle, SubsidenceResidual.self_sar.
  py_unfold. rewrite verifySqueeSAR_run, T.
  cbn [exc_matches fst snd w_subres_tool set_subres_tool sar set_sar].
  rewrite selectSqueeSARData_unknown by exact E. reflexivity.
Qed.

(** X6.  [verifySqueeSAR] accepts whatever is highlighted in the table of
    contents.  When that item is no feature layer of the map, either tool
    ends in the host's error for the first geoprocessing call; the user is
    shown nothing, and nothing is selected or stored. *)
Theorem tools_on_unknown_layer
    (t : ToolKind) (w : World) (rect : Extent) (r : LayerRef) :
  w_toc w = Some r -> w_layers w !! r = None ->
  (run_tool t rect w).1 = Raise unknown_dataset /\
  w_log (run_tool t rect w).2 = w_log w /\
  w_layers (run_tool t rect w).2 = w_layers w /\
  w_gdb (run_tool t rect w).2 = w_gdb w.
Proof.
  intros T E. destruct t; cbn [run_tool].
  - rewrite (average_unknown_layer w rect r T E). auto.
  - rewrite (residual_unknown_layer w rect r T E). auto.
Qed.

(** X7.  An invocation of the average tool that finds at least one scatterer on
    a layer with the field VEL returns; the user sees the printed count and
    one information box, whose count is the number of scatterers within
    the rectangle and whose average is taken over exactly those, whatever
    selection the layer had before; the selection is cleared at the end. *)
Theorem average_invocation_report
    (w : World) (rect : Extent) (r : LayerRef) (l : Layer) :
  w_toc w = Some r -> w_layers w !! r = Some l ->
  selected_by rect l <> [] -> In "VEL" (lyr_fields l) ->
  let sel := selected_by rect l in
  let out := AverageDisplacementVelocity.onRectangle rect w in
  out.1 = Return tt /\
  w_log out.2 =
    (w_log w ++ [EvPrint (SelectedWithin (count_text (length sel)) rect);
                 EvMessageBox (AverageReport (length sel) rect
                                 (np_average (velocities sel))) "Info" 0])%list /\
  w_layers out.2 = <[r := set_selection None l]> (w_layers w).
Proof.
  intros T E N V. cbv zeta. rewrite (average_selected w rect r l T E). cbv zeta.
  destruct (selected_by rect l) as [|f fs] eqn:S; [congruence|].
  apply name_in_In in V. rewrite V. cbn [fst snd].
  split; [reflexivity|]. split.
  - cbn. now rewrite <- app_assoc.
  - cbn [w_layers log_add set_log with_selection set_layers set_avevel_tool].
    apply insert_insert_eq.
Qed.

(** X8.  The average tool never writes: whatever the map and the rectangle, and
    however the invocation ends, the geodatabase, the data frame, the
    environment settings, the table of contents and the object of the
    residual tool are as before. *)
Theorem average_tool_frame (w : World) (rect : Extent) :
  let w' := (AverageDisplacementVelocity.onRectangle rect w).2 in
  w_gdb w' = w_gdb w /\ w_dataframe w' = w_dataframe w /\
  w_overwriteOutput w' = w_overwriteOutput w /\
  w_addOutputsToMap w' = w_addOutputsToMap w /\
  w_outputCoordinateSystem w' = w_outputCoordinateSystem w /\
  w_toc w' = w_toc w /\ w_subres_tool w' = w_subres_tool w.
Proof.
  cbv zeta. destruct (w_toc w) as [r|] eqn:T.
  - destruct (w_layers w !! r) as [l|] eqn:E.
    + rewrite (average_selected w rect r l T E). cbv zeta.
      case_all; cbn; rewrite ?T; repeat split; reflexivity.
    + rewrite (average_unknown_layer w rect r T E). cbn. rewrite T.
      repeat split; reflexivity.
  - rewrite (average_no_layer w rect T). cbn. rewrite T. repeat split; reflexivity.
Qed.

(** X9.  Each tool remembers the layer it was last used on.  When an item is
    highlighted in the table of contents the tool's [sar] attribute refers to
    it after the invocation, however the invocation ends; when nothing is
    highlighted the attribute keeps the layer of the invocation before. *)
Theorem tool_remembers_layer (t : ToolKind) (w : World) (rect : Extent) :
  sar (tool_of t (run_tool t rect w).2) =
    match w_toc w with
    | Some r => Some r
    | None => sar (tool_of t w)
    end.
Proof.
  destruct (w_toc w) as [r|] eqn:T.
  - destruct (w_layers w !! r) as [l|] eqn:E.
    + destruct t; cbn [run_tool tool_of].
      * rewrite (average_selected w rect r l T E). cbv zeta.
        case_all; reflexivity.
      * rewrite (residual_selected w rect r l T E). cbv zeta.
        case_all; reflexivity.
    + destruct t; cbn [run_tool tool_of].
      * now rewrite (average_unknown_layer w rect r T E).
      * now rewrite (residual_unknown_layer w rect r T E).
  - destruct t; cbn [run_tool tool_of].
    + now rewrite (average_no_layer w rect T).
    + now rewrite (residual_no_layer w rect T).
Qed.

End ToolsMore.

Section ResidualMore.
Context `{G : GeometryEngine} `{R : SubresModule}.

(** X10.  An exception of the residual module leaves [onRectangle] as it is.
    Nothing has been stored or added to the data frame by then and the output
    coordinate system is untouched, but the layer keeps the selection of the
    query. *)
Theorem residual_module_failure
    (w : World) (rect : Extent) (r : LayerRef) (l : Layer) (e : PyExc) :
  w_toc w = Some r -> w_layers w !! r = Some l ->
  (3 <= length (selected_by rect l))%nat ->
  subres_evaluate rect (set_selection (Some (selected_by rect l)) l) = Raise e ->
  let out := SubsidenceResidual.onRectangle rect w in
  out.1 = Raise e /\
  w_gdb out.2 = w_gdb w /\ w_dataframe out.2 = w_dataframe w /\
  w_outputCoordinateSystem out.2 = w_outputCoordinateSystem w /\
  selection_of r out.2 = Some (Some (selected_by rect l)).
Proof.
  intros T E N Ev. cbv zeta. rewrite (residual_selected w rect r l T E). cbv zeta.
  destruct (selected_by rect l) as [|f fs] eqn:S; [cbn in N; lia|].
  apply Nat.ltb_ge in N. rewrite N, Ev. cbn [fst snd].
  split; [reflexivity|]. split; [reflexivity|]. split; [reflexivity|].
  split; [reflexivity|].
  unfold selection_of, log_add, set_log, with_selection, set_layers.
  cbn [w_layers]. rewrite lookup_insert_eq. cbn [fmap option_fmap option_map].
  cbn [lyr_selection set_selection]. now rewrite S.
Qed.

(** X11.  A residual array with an empty axis makes the cell-size division fail:
    [onRectangle] ends in [ZeroDivisionError] before a raster is built; the
    geodatabase and the data frame are as before and the layer keeps the
    selection of the query. *)
Theorem residual_empty_axis
    (w : World) (rect : Extent) (r : LayerRef) (l : Layer) (res : ndarray) :
  w_toc w = Some r -> w_layers w !! r = Some l ->
  (3 <= length (selected_by rect l))%nat ->
  subres_evaluate rect (set_selection (Some (selected_by rect l)) l) = Return res ->
  (np_shape res).1 = O \/ (np_shape res).2 = O ->
  let out := SubsidenceResidual.onRectangle rect w in
  out.1 = Raise (mkExc ZeroDivisionError "float division by zero") /\
  w_gdb out.2 = w_gdb w /\ w_dataframe out.2 = w_dataframe w /\
  selection_of r out.2 = Some (Some (selected_by rect l)).
Proof.
  intros T E N Ev Z. cbv zeta. rewrite (residual_selected w rect r l T E). cbv zeta.
  destruct (selected_by rect l) as [|f fs] eqn:S; [cbn in N; lia|].
  apply Nat.ltb_ge in N. rewrite N, Ev.
  assert (Sel : forall ev,
             selection_of r (log_add ev (with_selection rect r l
                                           (set_subres_tool (set_sar (Some r)) w)))
             = Some (Some (f :: fs))).
  { intros ev. unfold selection_of, log_add, set_log, with_selection, set_layers.
    cbn [w_layers]. rewrite lookup_insert_eq. cbn [fmap option_fmap option_map].
    cbn [lyr_selection set_selection]. now rewrite S. }
  destruct (np_shape res) as [[|a] [|b]]; cbn [fst snd] in Z;
    try (destruct Z; discriminate); cbn [fst snd];
    (split; [reflexivity|]; split; [reflexivity|]; split; [reflexivity|]; apply Sel).
Qed.

(** X12.  What an invocation that goes through leaves behind, besides the
    raster: the output coordinate system of the environment is now the
    layer's spatial reference, which the raster carries with the rectangle's
    lower-left corner as its origin; a layer on the raster is on top of the
    data frame, 25% transparent when the host supports it; the user has been
    shown no box, only the printed count; the selection is cleared. *)
Theorem residual_success_effects
    (w : World) (rect : Extent) (r : LayerRef) (l : Layer) (res : ndarray) (a b : nat) :
  w_toc w = Some r -> w_layers w !! r = Some l ->
  (3 <= length (selected_by rect l))%nat ->
  subres_evaluate rect (set_selection (Some (selected_by rect l)) l) = Return res ->
  np_shape res = (S a, S b) ->
  w_overwriteOutput w = true ->
  let w' := (SubsidenceResidual.onRectangle rect w).2 in
  w_outputCoordinateSystem w' = Some (lyr_spatref l) /\
  (exists raster,
     w_gdb w' !! "subsidence" = Some raster /\
     ras_spatref raster = Some (lyr_spatref l) /\
     ras_lower_left raster = lowerLeft rect) /\
  w_dataframe w' =
    mkMapLayer "subsidence" (if w_raster_transparency w then 25 else 0) :: w_dataframe w /\
  w_log w' =
    (w_log w ++ [EvPrint (SelectedWithin (count_text (length (selected_by rect l))) rect)])%list /\
  w_layers w' = <[r := set_selection None l]> (w_layers w).
Proof.
  intros T E N Ev Sh Ov. cbv zeta.
  rewrite (residual_goes_through w rect r l res a b T E N Ev Sh Ov).
  cbn [snd w_outputCoordinateSystem w_gdb w_dataframe w_log w_layers
       w_raster_transparency residual_done log_add set_log with_selection
       set_layers set_outputCoordinateSystem set_dataframe set_gdb
       set_subres_tool].
  split; [reflexivity|]. split.
  - exists (residual_raster rect l res). split; [apply lookup_insert_eq|].
    unfold residual_raster. rewrite Sh.
    cbn [ras_spatref ras_lower_left]. split; reflexivity.
  - split; [reflexivity|]. split; [reflexivity|].
    apply insert_insert_eq.
Qed.

(** X13.  For a square residual array the raster covers the drawn rectangle
    exactly: its columns add up to the rectangle's width and its rows to the
    rectangle's height. *)
Theorem residual_square_array_covers_extent
    (w : World) (rect : Extent) (r : LayerRef) (l : Layer) (res : ndarray) (n : nat) :
  w_toc w = Some r -> w_layers w !! r = Some l ->
  (3 <= length (selected_by rect l))%nat ->
  subres_evaluate rect (set_selection (Some (selected_by rect l)) l) = Return res ->
  np_shape res = (S n, S n) ->
  w_overwriteOutput w = true ->
  exists raster,
    w_gdb (SubsidenceResidual.onRectangle rect w).2 !! "subsidence" = Some raster /\
    (inject_Z (Z.of_nat (np_shape (ras_data raster)).2) * ras_x_cell_size raster
       == width rect)%Q /\
    (inject_Z (Z.of_nat (np_shape (ras_data raster)).1) * ras_y_cell_size raster
       == height rect)%Q.
Proof.
  intros T E N Ev Sh Ov.
  rewrite (residual_goes_through w rect r l res n n T E N Ev Sh Ov).
  exists (residual_raster rect l res). split.
  - cbn [snd w_gdb residual_done set_layers set_dataframe set_gdb].
    apply lookup_insert_eq.
  - unfold residual_raster. rewrite Sh.
    cbn [ras_data ras_x_cell_size ras_y_cell_size].
    rewrite Sh. cbn [fst snd].
    split; field; apply count_nonzero.
Qed.

Lemma deactivate_run (t : ToolKind) (w : World) (r : LayerRef) (l : Layer) :
  sar (tool_of t w) = Some r -> w_layers w !! r = Some l ->
  deactivate_tool t w = (Return tt, set_layers (<[r := set_selection None l]>) w).
Proof.
  intros S E.
  destruct t; cbn [deactivate_tool tool_of] in *;
    unfold AverageDisplacementVelocity.deactivate, AverageDisplacementVelocity.self_sar,
      SubsidenceResidual.deactivate, SubsidenceResidual.self_sar;
    py_unfold; rewrite S; now apply clear_selection_run.
Qed.

Lemma layer_survives_invocation
    (t : ToolKind) (w : World) (rect : Extent) (r : LayerRef) (l : Layer) :
  w_toc w = Some r -> w_layers w !! r = Some l ->
  sar (tool_of t (run_tool t rect w).2) = Some r /\
  exists sel, w_layers (run_tool t rect w).2 !! r = Some (set_selection sel l).
Proof.
  intros T E. destruct t; cbn [run_tool tool_of].
  - rewrite (average_selected w rect r l T E). cbv zeta.
    case_all; (split; [reflexivity | eexists; cbn; apply lookup_insert_eq]).
  - rewrite (residual_selected w rect r l T E). cbv zeta.
    case_all; (split; [reflexivity | eexists; cbn; apply lookup_insert_eq]).
Qed.

(** X14.  The clean-up of [deactivate] makes up for the exits that leave the
    selection behind: after an invocation on a layer of the map, however it
    ended, deactivating the tool returns and the layer has no selection; its
    scatterers are untouched. *)
Theorem deactivate_after_invocation
    (t : ToolKind) (w : World) (rect : Extent) (r : LayerRef) (l : Layer) :
  w_toc w = Some r -> w_layers w !! r = Some l ->
  let w' := (run_tool t rect w).2 in
  (deactivate_tool t w').1 = Return tt /\
  w_layers (deactivate_tool t w').2 !! r = Some (set_selection None l).
Proof.
  intros T E. cbv zeta.
  destruct (layer_survives_invocation t w rect r l T E) as (S & sel & L).
  rewrite (deactivate_run t _ r _ S L). cbn.
  split; [reflexivity | apply lookup_insert_eq].
Qed.

(** A tool that has not been used since start-up has no layer to clean:
    [deactivate] right after [__init__] changes nothing. *)
Lemma deactivate_unused (w : World) :
  SubsidenceResidual.deactivate (SubsidenceResidual.__init__ w).2
    = (Return tt, (SubsidenceResidual.__init__ w).2) /\
  AverageDisplacementVelocity.deactivate (AverageDisplacementVelocity.__init__ w).2
    = (Return tt, (AverageDisplacementVelocity.__init__ w).2).
Proof. split; reflexivity. Qed.

End ResidualMore.

(* ------------------------------------------------------------------ *)
(** * The further properties at concrete maps *)

Lemma selectSqueeSARData_new_selection_witness :
  let w := sar_map (squeesar (on_plane ++ [scatterer 2 2 1])) in
  let first := @utils.selectSqueeSARData box_geometry (mkExtent 2 2 3 3) (Some "sar") w in
  let second := @utils.selectSqueeSARData box_geometry unit_square (Some "sar") first.2 in
  first.1 = Return (1%nat, "WGS84") /\
  second.1 = Return (3%nat, "WGS84") /\
  selection_of "sar" second.2 = Some (Some on_plane).
Proof.
  cbv zeta.
  destruct (selectSqueeSARData_new_selection (G := box_geometry)
              (sar_map (squeesar (on_plane ++ [scatterer 2 2 1])))
              (mkExtent 2 2 3 3) unit_square "sar"
              (squeesar (on_plane ++ [scatterer 2 2 1])))
    as (Same & Layers).
  - reflexivity.
  - split; [reflexivity|]. split.
    + etransitivity; [exact Same | reflexivity].
    + unfold selection_of.
      etransitivity; [exact (f_equal (fun m => lyr_selection <$> m !! "sar") Layers)|].
      reflexivity.
Defined.

Lemma selectSqueeSARData_frame_witness :
  let w := sar_map (squeesar on_plane) in
  let w' := (@utils.selectSqueeSARData box_geometry unit_square (Some "sar") w).2 in
  w_gdb w' = w_gdb w /\ exists ev, w_log w' = (w_log w ++ [ev])%list.
Proof.
  cbv zeta.
  destruct (selectSqueeSARData_frame (G := box_geometry)
              (sar_map (squeesar on_plane)) unit_square "sar" (squeesar on_plane))
    as (_ & _ & Gdb & _ & _ & _ & _ & _ & _ & _ & Log).
  - reflexivity.
  - split; [exact Gdb | exact Log].
Defined.

Lemma evaluate_empty_selection_witness :
  let w := sar_map (set_selection (Some []) (squeesar on_plane)) in
  avevel.evaluate (Some "sar") w = (Return NaN, w).
Proof.
  cbv zeta.
  apply (evaluate_empty_selection _ "sar" (set_selection (Some []) (squeesar on_plane))).
  - reflexivity.
  - simpl. auto.
  - reflexivity.
Defined.

Lemma evaluate_order_independent_witness :
  let l1 := squeesar [scatterer 0 0 1; scatterer 1 0 2; scatterer 0 1 6] in
  let l2 := squeesar [scatterer 0 1 6; scatterer 0 0 1; scatterer 1 0 2] in
  exists a b,
    avevel.evaluate (Some "sar") (sar_map l1) = (Return a, sar_map l1) /\
    avevel.evaluate (Some "sar") (sar_map l2) = (Return b, sar_map l2) /\
    pyfloat_eq a b.
Proof.
  cbv zeta.
  apply (evaluate_order_independent _ _ "sar" "sar"
           (squeesar [scatterer 0 0 1; scatterer 1 0 2; scatterer 0 1 6])
           (squeesar [scatterer 0 1 6; scatterer 0 0 1; scatterer 1 0 2])).
  - reflexivity.
  - reflexivity.
  - simpl. auto.
  - simpl. auto.
  - cbn [visible_features lyr_selection lyr_features squeesar].
    symmetry.
    exact (Permutation_cons_append [scatterer 0 0 1; scatterer 1 0 2] (scatterer 0 1 6)).
Defined.

Lemma evaluate_within_bounds_witness :
  let w := sar_map (squeesar [scatterer 0 0 1; scatterer 1 0 2; scatterer 0 1 6]) in
  exists ave_vel : Q,
    avevel.evaluate (Some "sar") w = (Return (Finite ave_vel), w) /\
    (1 <= ave_vel /\ ave_vel <= 6)%Q.
Proof.
  cbv zeta.
  apply (evaluate_within_bounds _ "sar"
           (squeesar [scatterer 0 0 1; scatterer 1 0 2; scatterer 0 1 6]) 1 6).
  - reflexivity.
  - simpl. auto.
  - discriminate.
  - cbn [visible_features lyr_selection squeesar].
    repeat constructor; vm_compute; discriminate.
Defined.

Lemma tools_on_unknown_layer_witness :
  let w := arcmap (Some "Layers") {[ "sar" := squeesar on_plane ]} in
  (@run_tool box_geometry (fixed_subres zeros_2x4) ResidualTool unit_square w).1
    = Raise unknown_dataset /\
  w_log (@run_tool box_geometry (fixed_subres zeros_2x4) ResidualTool unit_square w).2 = [].
Proof.
  cbv zeta.
  destruct (tools_on_unknown_layer (G := box_geometry) (R := fixed_subres zeros_2x4)
              ResidualTool (arcmap (Some "Layers") {[ "sar" := squeesar on_plane ]})
              unit_square "Layers")
    as (Out & Log & _).
  - reflexivity.
  - reflexivity.
  - split; [exact Out | exact Log].
Defined.

Lemma average_invocation_report_witness :
  let l := squeesar [scatterer 0 0 1; scatterer 1 1 3; scatterer 2 2 8] in
  let w := sar_map (set_selection (Some [scatterer 2 2 8]) l) in
  let out := @AverageDisplacementVelocity.onRectangle box_geometry unit_square w in
  out.1 = Return tt /\ selection_of "sar" out.2 = Some None.
Proof.
  cbv zeta.
  destruct (average_invocation_report (G := box_geometry)
              (sar_map (set_selection (Some [scatterer 2 2 8])
                          (squeesar [scatterer 0 0 1; scatterer 1 1 3; scatterer 2 2 8])))
              unit_square "sar"
              (set_selection (Some [scatterer 2 2 8])
                 (squeesar [scatterer 0 0 1; scatterer 1 1 3; scatterer 2 2 8])))
    as (Out & _ & Layers).
  - reflexivity.
  - reflexivity.
  - vm_compute. discriminate.
  - simpl. auto.
  - split; [exact Out|]. unfold selection_of. rewrite Layers. reflexivity.
Defined.

Lemma residual_module_failure_witness :
  let out := @SubsidenceResidual.onRectangle box_geometry (failing_subres singular_matrix)
               unit_square (sar_map (squeesar on_plane)) in
  out.1 = Raise singular_matrix /\ selection_of "sar" out.2 = Some (Some on_plane).
Proof.
  cbv zeta.
  destruct (residual_module_failure (G := box_geometry) (R := failing_subres singular_matrix)
              (sar_map (squeesar on_plane)) unit_square "sar" (squeesar on_plane)
              singular_matrix)
    as (Out & _ & _ & _ & Sel).
  - reflexivity.
  - reflexivity.
  - vm_compute. lia.
  - reflexivity.
  - split; [exact Out | exact Sel].
Defined.

Lemma residual_empty_axis_witness :
  let out := @SubsidenceResidual.onRectangle box_geometry (fixed_subres [])
               unit_square (sar_map (squeesar on_plane)) in
  out.1 = Raise (mkExc ZeroDivisionError "float division by zero") /\
  w_gdb out.2 = ∅.
Proof.
  cbv zeta.
  destruct (residual_empty_axis (G := box_geometry) (R := fixed_subres [])
              (sar_map (squeesar on_plane)) unit_square "sar" (squeesar on_plane) [])
    as (Out & Gdb & _).
  - reflexivity.
  - reflexivity.
  - vm_compute. lia.
  - reflexivity.
  - left. reflexivity.
  - split; [exact Out | exact Gdb].
Defined.

Lemma residual_success_effects_witness :
  let w' := (@SubsidenceResidual.onRectangle box_geometry (fixed_subres zeros_2x4)
               unit_square (sar_map (squeesar on_plane))).2 in
  w_outputCoordinateSystem w' = Some "WGS84" /\
  w_dataframe w' = [mkMapLayer "subsidence" 25].
Proof.
  cbv zeta.
  destruct (residual_success_effects (G := box_geometry) (R := fixed_subres zeros_2x4)
              (sar_map (squeesar on_plane)) unit_square "sar" (squeesar on_plane)
              zeros_2x4 1 3)
    as (Cs & _ & Df & _).
  - reflexivity.
  - reflexivity.
  - vm_compute. lia.
  - reflexivity.
  - reflexivity.
  - reflexivity.
  - split; [exact Cs | exact Df].
Defined.

Lemma residual_square_array_covers_extent_witness :
  let w' := (@SubsidenceResidual.onRectangle box_geometry (fixed_subres zeros_2x2)
               (mkExtent 0 0 8 6) (sar_map (squeesar on_plane))).2 in
  exists raster,
    w_gdb w' !! "subsidence" = Some raster /\
    (2 * ras_x_cell_size raster == 8)%Q /\ (2 * ras_y_cell_size raster == 6)%Q.
Proof.
  cbv zeta.
  destruct (residual_square_array_covers_extent (G := box_geometry)
              (R := fixed_subres zeros_2x2)
              (sar_map (squeesar on_plane)) (mkExtent 0 0 8 6) "sar" (squeesar on_plane)
              zeros_2x2 1)
    as (raster & Stored & Wd & Ht).
  - reflexivity.
  - reflexivity.
  - vm_compute. lia.
  - reflexivity.
  - reflexivity.
  - reflexivity.
  - exists raster. split; [exact Stored|].
    assert (D : ras_data raster = zeros_2x2).
    { vm_compute in Stored. injection Stored as <-. reflexivity. }
    rewrite D in Wd, Ht. split; [exact Wd | exact Ht].
Defined.

Lemma deactivate_after_invocation_witness :
  let l := squeesar [scatterer 0 0 1; scatterer 1 1 1; scatterer 2 2 1] in
  let w' := (@run_tool box_geometry (fixed_subres zeros_2x4) ResidualTool unit_square
               (sar_map l)).2 in
  selection_of "sar" w' = Some (Some [scatterer 0 0 1; scatterer 1 1 1]) /\
  (deactivate_tool ResidualTool w').1 = Return tt /\
  selection_of "sar" (deactivate_tool ResidualTool w').2 = Some None.
Proof.
  cbv zeta.
  destruct (deactivate_after_invocation (G := box_geometry) (R := fixed_subres zeros_2x4)
              ResidualTool
              (sar_map (squeesar [scatterer 0 0 1; scatterer 1 1 1; scatterer 2 2 1]))
              unit_square "sar"
              (squeesar [scatterer 0 0 1; scatterer 1 1 1; scatterer 2 2 1]))
    as (Out & Sel).
  - reflexivity.
  - reflexivity.
  - split; [reflexivity|]. split; [exact Out|].
    unfold selection_of. rewrite Sel. reflexivity.
Defined.
